(** * Lightmap seam stitching (Glow/LightmapStitcher)

    A shallow embedding of the lightmap stitcher of the engine:
    [GetStitchTextureFormat], [CreateStitchingScene],
    [CreateStitchingViewAndViewport], [CreateSeamsVertexBuffer],
    [InitializeStitchingContext], [CreateSeamsModel] and
    [StitchLightmapSeams], followed by the properties established about them.

    Conventions.
    - [float] values of the C++ code are IEEE binary32 numbers, represented by
      [spec_float] with precision 24 and maximal exponent 128; arithmetic is
      the correctly rounded arithmetic of [SpecFloat].
    - [unsigned] values are integers in [0, 2^32); [static_cast<int>] is
      written out as the two's complement reinterpretation [to_int].
    - Sizes of containers, and the vertex counts computed from them, are
      natural numbers.
    - Engine objects reached through pointers (the two ping-pong textures) are
      designated by a reference into the stitching context that owns them.
    - Calls into the rendering subsystem are recorded, in order, in a trace.
    - The [Context*] argument that only serves to reach engine services is
      left out; [CreateChild] always yields a node, so the [if] around the
      set-up of each node is always taken. *)

From Stdlib Require Import ZArith NArith List Bool Lia String.
From Stdlib Require Import Floats.SpecFloat.
Import ListNotations.

Local Open Scope Z_scope.

(* ------------------------------------------------------------------ *)
(** ** Machine numbers *)

Module F32.

Definition prec : Z := 24.
Definition emax : Z := 128.

Definition float : Type := spec_float.

Definition of_Z (z : Z) : float := binary_normalize prec emax z 0 false.

Definition add : float -> float -> float := SFadd prec emax.
Definition sub : float -> float -> float := SFsub prec emax.
Definition mul : float -> float -> float := SFmul prec emax.
Definition div : float -> float -> float := SFdiv prec emax.
Definition opp : float -> float := SFopp.
Definition ltb : float -> float -> bool := SFltb.
Definition leb : float -> float -> bool := SFleb.

  (** The literals of the source. *)
Definition zero : float := S754_zero false.                       (* 0.0f  *)
Definition one : float := Eval vm_compute in of_Z 1.              (* 1.0f  *)
Definition ten : float := Eval vm_compute in of_Z 10.             (* 10.0f *)
Definition tenth : float := Eval vm_compute in div one ten.       (* 0.1f  *)
Definition half : float := Eval vm_compute in div one (of_Z 2).   (* 0.5f  *)

End F32.

Definition float : Type := F32.float.

Definition UINT_RANGE : Z := 2 ^ 32.
Definition INT_MAX : Z := 2 ^ 31 - 1.

(** [static_cast<int>(u)] for an [unsigned] value [u]. *)
Definition to_int (u : Z) : Z :=
  let r := u mod UINT_RANGE in
  if r <=? INT_MAX then r else r - UINT_RANGE.

(* ------------------------------------------------------------------ *)
(** ** Math types *)

Record Vector2 := mkVector2 { x2_ : float; y2_ : float }.
Record Vector3 := mkVector3 { x_ : float; y_ : float; z_ : float }.
Record Vector4 := mkVector4 { vx_ : float; vy_ : float; vz_ : float; vw_ : float }.
Record Color := mkColor { r_ : float; g_ : float; b_ : float; a_ : float }.
Record BoundingBox := mkBoundingBox { min_ : Vector3; max_ : Vector3 }.

Module Vector3C.
Definition ZERO : Vector3 := mkVector3 F32.zero F32.zero F32.zero.
Definition ONE : Vector3 := mkVector3 F32.one F32.one F32.one.
Definition UP : Vector3 := mkVector3 F32.zero F32.one F32.zero.
Definition DOWN : Vector3 := mkVector3 F32.zero (F32.opp F32.one) F32.zero.
Definition neg (v : Vector3) : Vector3 :=
    mkVector3 (F32.opp (x_ v)) (F32.opp (y_ v)) (F32.opp (z_ v)).
Definition minus (a b : Vector3) : Vector3 :=
    mkVector3 (F32.sub (x_ a) (x_ b)) (F32.sub (y_ a) (y_ b)) (F32.sub (z_ a) (z_ b)).
Definition dot (a b : Vector3) : float :=
    F32.add (F32.add (F32.mul (x_ a) (x_ b)) (F32.mul (y_ a) (y_ b)))
            (F32.mul (z_ a) (z_ b)).
End Vector3C.

(* ------------------------------------------------------------------ *)
(** ** Seams and their vertex buffer *)

(** [LightmapSeam]: two own-side end points and the two matching end points
    on the other side. *)
Record LightmapSeam := mkLightmapSeam {
  positions_ : Vector2 * Vector2;
  otherPositions_ : Vector2 * Vector2
}.

Definition LightmapSeamVector := list LightmapSeam.

(** Indexing of a two-element C array; the source only uses [0] and [1]. *)
Definition at2 {A} (arr : A * A) (i : nat) : A :=
  match i with
  | O => fst arr
  | _ => snd arr
  end.

Inductive VertexElementType := TYPE_VECTOR2 | TYPE_VECTOR3.
Inductive VertexElementSemantic := SEM_POSITION | SEM_TEXCOORD.
Record VertexElement := mkVertexElement {
  type_ : VertexElementType;
  semantic_ : VertexElementSemantic
}.

(** Number of floats an element occupies in a vertex. *)
Definition elementFloats (e : VertexElement) : nat :=
  match type_ e with
  | TYPE_VECTOR2 => 2
  | TYPE_VECTOR3 => 3
  end.

Definition vertexFloats (elements : list VertexElement) : nat :=
  fold_right (fun e acc => (elementFloats e + acc)%nat) O elements.

(** Modelled from the spec: the engine class [VertexBuffer] is not part of
    the stitcher's sources.  A buffer has a vertex count and a vertex layout
    ([SetSize]), a shadowing flag, and [SetData] copies as many vertices as
    the buffer was sized for from the array it is given. *)
Record VertexBuffer := mkVertexBuffer {
  shadowed_ : bool;
  vertexCount_ : nat;
  elements_ : list VertexElement;
  shadowData_ : list float
}.

Module VertexBufferOps.
Definition make : VertexBuffer := mkVertexBuffer false O [] [].
Definition SetShadowed (b : bool) (vb : VertexBuffer) : VertexBuffer :=
    mkVertexBuffer b (vertexCount_ vb) (elements_ vb) (shadowData_ vb).
Definition SetSize (count : nat) (elements : list VertexElement)
      (vb : VertexBuffer) : VertexBuffer :=
    mkVertexBuffer (shadowed_ vb) count elements [].
Definition SetData (data : list float) (vb : VertexBuffer) : VertexBuffer :=
    mkVertexBuffer (shadowed_ vb) (vertexCount_ vb) (elements_ vb)
      (firstn (vertexCount_ vb * vertexFloats (elements_ vb)) data).
End VertexBufferOps.

Definition vertexElements : list VertexElement :=
  [ mkVertexElement TYPE_VECTOR3 SEM_POSITION;
    mkVertexElement TYPE_VECTOR2 SEM_TEXCOORD ].

(** [vector::push_back]. *)
Definition push_back {A} (v : list A) (a : A) : list A := v ++ [a].

(** Body of the inner loop: the five [push_back] calls for end point [i]. *)
Definition pushEndpoint (seam : LightmapSeam) (vertexData : list float) (i : nat)
    : list float :=
  let vertexData := push_back vertexData (x2_ (at2 (positions_ seam) i)) in
  let vertexData := push_back vertexData F32.zero in
  let vertexData := push_back vertexData (F32.sub F32.one (y2_ (at2 (positions_ seam) i))) in
  let vertexData := push_back vertexData (x2_ (at2 (otherPositions_ seam) i)) in
  let vertexData := push_back vertexData (y2_ (at2 (otherPositions_ seam) i)) in
  vertexData.

(** [for (unsigned i = 0; i < 2; ++i)]. *)
Definition pushSeam (vertexData : list float) (seam : LightmapSeam) : list float :=
  fold_left (pushEndpoint seam) (seq 0 2) vertexData.

(** [for (const LightmapSeam& seam : seams)], starting from the empty vector. *)
Definition seamsVertexData (seams : LightmapSeamVector) : list float :=
  fold_left pushSeam seams [].

Definition CreateSeamsVertexBuffer (seams : LightmapSeamVector) : VertexBuffer :=
  let vertexData := seamsVertexData seams in
  let vertexBuffer := VertexBufferOps.make in
  let vertexBuffer := VertexBufferOps.SetShadowed true vertexBuffer in
  let vertexBuffer := VertexBufferOps.SetSize (List.length seams * 2) vertexElements vertexBuffer in
  let vertexBuffer := VertexBufferOps.SetData vertexData vertexBuffer in
  vertexBuffer.

(* ------------------------------------------------------------------ *)
(** ** Geometry and model of the seams *)

Inductive PrimitiveType := TRIANGLE_LIST | LINE_LIST | POINT_LIST.

(** The stitcher never creates an index buffer; the type only records that a
    geometry may or may not have one. *)
Record IndexBuffer := mkIndexBuffer { indexCountOfBuffer_ : nat }.

(** [vector::resize] with a fill value. *)
Definition resize {A} (n : nat) (fill : A) (v : list A) : list A :=
  firstn n v ++ repeat fill (n - List.length v).

(** Assignment [v[i] = a], refused when [i] is out of range. *)
Fixpoint assign {A} (i : nat) (a : A) (v : list A) : option (list A) :=
  match v, i with
  | [], _ => None
  | _ :: tl, O => Some (a :: tl)
  | hd :: tl, S i' => option_map (cons hd) (assign i' a tl)
  end.

(** Modelled from the spec: the engine class [Geometry] is not part of the
    stitcher's sources.  It holds vertex buffer slots, an optional index
    buffer and the draw range last set. *)
Record Geometry := mkGeometry {
  geometryVertexBuffers_ : list (option VertexBuffer);
  geometryIndexBuffer_ : option IndexBuffer;
  primitiveType_ : PrimitiveType;
  indexStart_ : nat;
  indexCount_ : nat;
  vertexStart_ : nat;
  drawVertexCount_ : nat
}.

Module GeometryOps.
Definition make : Geometry := mkGeometry [None] None TRIANGLE_LIST 0 0 0 0.
Definition SetNumVertexBuffers (n : nat) (g : Geometry) : Geometry :=
    mkGeometry (resize n None (geometryVertexBuffers_ g)) (geometryIndexBuffer_ g)
      (primitiveType_ g) (indexStart_ g) (indexCount_ g) (vertexStart_ g)
      (drawVertexCount_ g).
Definition SetVertexBuffer (index : nat) (vb : VertexBuffer) (g : Geometry) : Geometry :=
    match assign index (Some vb) (geometryVertexBuffers_ g) with
    | Some bufs =>
        mkGeometry bufs (geometryIndexBuffer_ g)
          (primitiveType_ g) (indexStart_ g) (indexCount_ g) (vertexStart_ g)
          (drawVertexCount_ g)
    | None => g
    end.
  (** The overload with an explicit vertex range. *)
Definition SetDrawRange (type : PrimitiveType) (indexStart indexCount
      vertexStart vertexCount : nat) (checkIllegal : bool) (g : Geometry) : Geometry :=
    mkGeometry (geometryVertexBuffers_ g) (geometryIndexBuffer_ g)
      type indexStart indexCount vertexStart vertexCount.
End GeometryOps.

(** Modelled from the spec: the engine class [Model] is not part of the
    stitcher's sources.  It holds a bounding box, its vertex and index
    buffers, and per geometry the list of its LOD levels. *)
Record Model := mkModel {
  boundingBox_ : BoundingBox;
  modelVertexBuffers_ : list VertexBuffer;
  modelIndexBuffers_ : list IndexBuffer;
  geometries_ : list (list (option Geometry))
}.

Module ModelOps.
Definition make : Model :=
    mkModel (mkBoundingBox Vector3C.ZERO Vector3C.ZERO) [] [] [].
Definition SetBoundingBox (box : BoundingBox) (m : Model) : Model :=
    mkModel box (modelVertexBuffers_ m) (modelIndexBuffers_ m) (geometries_ m).
Definition SetNumGeometries (n : nat) (m : Model) : Model :=
    mkModel (boundingBox_ m) (modelVertexBuffers_ m) (modelIndexBuffers_ m)
      (resize n [None] (geometries_ m)).
Definition SetNumGeometryLodLevels (index num : nat) (m : Model) : Model :=
    match nth_error (geometries_ m) index with
    | Some lods =>
        match assign index (resize num None lods) (geometries_ m) with
        | Some gs => mkModel (boundingBox_ m) (modelVertexBuffers_ m) (modelIndexBuffers_ m) gs
        | None => m
        end
    | None => m
    end.
Definition SetVertexBuffers (buffers : list VertexBuffer)
      (morphRangeStarts morphRangeCounts : list nat) (m : Model) : Model :=
    mkModel (boundingBox_ m) buffers (modelIndexBuffers_ m) (geometries_ m).
Definition SetGeometry (index lodLevel : nat) (g : Geometry) (m : Model) : Model :=
    match nth_error (geometries_ m) index with
    | Some lods =>
        match assign lodLevel (Some g) lods with
        | Some lods' =>
            match assign index lods' (geometries_ m) with
            | Some gs => mkModel (boundingBox_ m) (modelVertexBuffers_ m) (modelIndexBuffers_ m) gs
            | None => m
            end
        | None => m
        end
    | None => m
    end.
Definition GetGeometry (index lodLevel : nat) (m : Model) : option Geometry :=
    match nth_error (geometries_ m) index with
    | Some lods =>
        match nth_error lods lodLevel with
        | Some g => g
        | None => None
        end
    | None => None
    end.
End ModelOps.

Definition CreateSeamsModel (seams : LightmapSeamVector) : Model :=
  let vertexBuffer := CreateSeamsVertexBuffer seams in

  let model := ModelOps.make in
  let model := ModelOps.SetBoundingBox
                 (mkBoundingBox (Vector3C.neg Vector3C.ONE) Vector3C.ONE) model in
  let model := ModelOps.SetNumGeometries 1 model in
  let model := ModelOps.SetNumGeometryLodLevels 0 1 model in
  let model := ModelOps.SetVertexBuffers [vertexBuffer] [] [] model in

  let geometry := GeometryOps.make in
  let geometry := GeometryOps.SetNumVertexBuffers 1 geometry in
  let geometry := GeometryOps.SetVertexBuffer 0 vertexBuffer geometry in
  let geometry := GeometryOps.SetDrawRange LINE_LIST 0 0 0 (List.length seams * 2) false geometry in
  let model := ModelOps.SetGeometry 0 0 geometry model in

  model.

(* ------------------------------------------------------------------ *)
(** ** Assertions *)

(** Result of a call that may run into [assert]. *)
Inductive Outcome (A : Type) : Type :=
| Returned (a : A)
| AssertionFailed.
Arguments Returned {A} a.
Arguments AssertionFailed {A}.

Definition obind {A B} (m : Outcome A) (k : A -> Outcome B) : Outcome B :=
  match m with
  | Returned a => k a
  | AssertionFailed => AssertionFailed
  end.

Declare Scope outcome_scope.
Delimit Scope outcome_scope with outcome.
Notation "x <- m ;; k" := (obind m (fun x => k))
  (at level 61, m at next level, right associativity) : outcome_scope.
Notation "m ;; k" := (obind m (fun _ => k))
  (at level 61, right associativity) : outcome_scope.

(** [assert(cond)]: compiled to nothing when [NDEBUG] is defined, otherwise
    it stops the program when [cond] is false. *)
Definition assert (NDEBUG : bool) (cond : bool) : Outcome unit :=
  if NDEBUG then Returned tt
  else if cond then Returned tt else AssertionFailed.

(* ------------------------------------------------------------------ *)
(** ** Scene description

    What [CreateStitchingScene] and [CreateStitchingViewAndViewport] put
    together.  Textures are referred to by their place in the stitching
    context. *)

Inductive TextureRef := pingTextureRef | pongTextureRef.

Definition TextureRef_eqb (a b : TextureRef) : bool :=
  match a, b with
  | pingTextureRef, pingTextureRef => true
  | pongTextureRef, pongTextureRef => true
  | _, _ => false
  end.

Record LightmapStitchingSettings := mkLightmapStitchingSettings {
  numIterations_ : nat;
  blendFactor_ : float;
  renderPathName_ : string;
  stitchBackgroundTechniqueName_ : string;
  stitchBackgroundModelName_ : string;
  stitchSeamsTechniqueName_ : string
}.

Record Camera := mkCamera {
  orthographic_ : bool;
  orthoSize_ : float;
  nearClip_ : float;
  farClip_ : float
}.

Module CameraOps.
Definition SetOrthographic (enable : bool) (c : Camera) : Camera :=
    mkCamera enable (orthoSize_ c) (nearClip_ c) (farClip_ c).
Definition SetOrthoSize (orthoSize : float) (c : Camera) : Camera :=
    mkCamera (orthographic_ c) orthoSize (nearClip_ c) (farClip_ c).
Definition SetNearClip (nearClip : float) (c : Camera) : Camera :=
    mkCamera (orthographic_ c) (orthoSize_ c) nearClip (farClip_ c).
Definition SetFarClip (farClip : float) (c : Camera) : Camera :=
    mkCamera (orthographic_ c) (orthoSize_ c) (nearClip_ c) farClip.
End CameraOps.

Inductive TextureUnit := TU_DIFFUSE | TU_NORMAL | TU_SPECULAR.

(** A technique or model obtained from the resource cache is known by the
    name it was asked for. *)
Record Material := mkMaterial {
  technique_ : option string;
  textures_ : list (TextureUnit * TextureRef);
  shaderParameters_ : list (string * Color);
  renderOrder_ : Z
}.

Module MaterialOps.
Definition make : Material := mkMaterial None [] [] 128.
Definition SetTechnique (index : nat) (technique : string) (m : Material) : Material :=
    mkMaterial (Some technique) (textures_ m) (shaderParameters_ m) (renderOrder_ m).
Definition SetTexture (unit : TextureUnit) (texture : TextureRef) (m : Material) : Material :=
    mkMaterial (technique_ m) ((unit, texture) :: textures_ m) (shaderParameters_ m)
      (renderOrder_ m).
Definition SetShaderParameter (name : string) (value : Color) (m : Material) : Material :=
    mkMaterial (technique_ m) (textures_ m) ((name, value) :: shaderParameters_ m)
      (renderOrder_ m).
Definition SetRenderOrder (order : Z) (m : Material) : Material :=
    mkMaterial (technique_ m) (textures_ m) (shaderParameters_ m) order.
End MaterialOps.

Inductive ModelSource :=
| CachedModel (name : string)
| GivenModel (model : Model).

Record StaticModel := mkStaticModel {
  model_ : option ModelSource;
  material_ : option Material
}.

Module StaticModelOps.
Definition make : StaticModel := mkStaticModel None None.
Definition SetModel (m : ModelSource) (s : StaticModel) : StaticModel :=
    mkStaticModel (Some m) (material_ s).
Definition SetMaterial (m : Material) (s : StaticModel) : StaticModel :=
    mkStaticModel (model_ s) (Some m).
End StaticModelOps.

Inductive Component :=
| OctreeComponent
| CameraComponent (camera : Camera)
| StaticModelComponent (staticModel : StaticModel).

Record Node := mkNode {
  name_ : string;
  position_ : Vector3;
  direction_ : Vector3;
  components_ : list Component
}.

Module NodeOps.
Definition FORWARD : Vector3 := mkVector3 F32.zero F32.zero F32.one.
Definition make (name : string) : Node := mkNode name Vector3C.ZERO FORWARD [].
Definition SetPosition (p : Vector3) (n : Node) : Node :=
    mkNode (name_ n) p (direction_ n) (components_ n).
Definition SetDirection (d : Vector3) (n : Node) : Node :=
    mkNode (name_ n) (position_ n) d (components_ n).
Definition CreateComponent (c : Component) (n : Node) : Node :=
    mkNode (name_ n) (position_ n) (direction_ n) (components_ n ++ [c]).
End NodeOps.

Record Scene := mkScene {
  sceneComponents_ : list Component;
  children_ : list Node
}.

Module SceneOps.
Definition make : Scene := mkScene [] [].
Definition CreateComponent (c : Component) (s : Scene) : Scene :=
    mkScene (sceneComponents_ s ++ [c]) (children_ s).
  (** [CreateChild] followed by whatever the caller does with the new node. *)
Definition AddChild (n : Node) (s : Scene) : Scene :=
    mkScene (sceneComponents_ s) (children_ s ++ [n]).

Definition cameraOf (c : Component) : option Camera :=
    match c with
    | CameraComponent cam => Some cam
    | _ => None
    end.

Fixpoint firstSome {A B} (f : A -> option B) (l : list A) : option B :=
    match l with
    | [] => None
    | a :: tl => match f a with Some b => Some b | None => firstSome f tl end
    end.

  (** [GetComponent<Camera>(true)]: the scene's own components first, then
      those of its children. *)
Definition GetCameraRecursive (s : Scene) : option Camera :=
    match firstSome cameraOf (sceneComponents_ s) with
    | Some c => Some c
    | None => firstSome (fun n => firstSome cameraOf (components_ n)) (children_ s)
    end.

Definition GetChild (name : string) (s : Scene) : option Node :=
    find (fun n => String.eqb (name_ n) name) (children_ s).
End SceneOps.

Record IntRect := mkIntRect { left_ : Z; top_ : Z; right_ : Z; bottom_ : Z }.
Definition IntRect_ZERO : IntRect := mkIntRect 0 0 0 0.

Record RenderPath := mkRenderPath { renderPathResource_ : string }.

Record Viewport := mkViewport {
  viewportCamera_ : option Camera;
  rect_ : IntRect;
  viewportRenderPath_ : option RenderPath;
  viewportScene_ : option Scene
}.

Module ViewportOps.
Definition make : Viewport := mkViewport None IntRect_ZERO None None.
Definition SetCamera (c : option Camera) (v : Viewport) : Viewport :=
    mkViewport c (rect_ v) (viewportRenderPath_ v) (viewportScene_ v).
Definition SetRect (r : IntRect) (v : Viewport) : Viewport :=
    mkViewport (viewportCamera_ v) r (viewportRenderPath_ v) (viewportScene_ v).
Definition SetRenderPath (p : RenderPath) (v : Viewport) : Viewport :=
    mkViewport (viewportCamera_ v) (rect_ v) (Some p) (viewportScene_ v).
Definition SetScene (s : Scene) (v : Viewport) : Viewport :=
    mkViewport (viewportCamera_ v) (rect_ v) (viewportRenderPath_ v) (Some s).
End ViewportOps.

(** A view after [Define]: the render surface it draws into (that of one of
    the two textures) and the viewport it draws. *)
Record View := mkView {
  renderTarget_ : option TextureRef;
  viewViewport_ : option Viewport
}.

Module ViewOps.
Definition make : View := mkView None None.
Definition Define (renderTarget : TextureRef) (viewport : Viewport) (v : View) : View :=
    mkView (Some renderTarget) (Some viewport).

  (** Textures bound to the materials of the drawables of a scene. *)
Definition materialTextures (c : Component) : list TextureRef :=
    match c with
    | StaticModelComponent sm =>
        match material_ sm with
        | Some m => map snd (textures_ m)
        | None => []
        end
    | _ => []
    end.
Definition sceneTextures (s : Scene) : list TextureRef :=
    flat_map (fun n => flat_map materialTextures (components_ n)) (children_ s).
  (** Textures a view samples from when it is rendered. *)
Definition sampledTextures (v : View) : list TextureRef :=
    match viewViewport_ v with
    | Some vp =>
        match viewportScene_ vp with
        | Some s => sceneTextures s
        | None => []
        end
    | None => []
    end.
End ViewOps.

(* ------------------------------------------------------------------ *)
(** ** The rendering subsystem *)

(** Calls into the rendering subsystem, as recorded in the trace. *)
Inductive Call :=
| CallLoadRenderPath (name : string)
| CallOctreeUpdate (scene : Scene)
| CallViewUpdate (view : View)
| CallBeginFrame (result : bool)
| CallLogError (message : string)
| CallSetData (texture : TextureRef) (level x y width height : Z)
| CallRender (view : View)
| CallGetData (texture : TextureRef) (level : Z)
| CallEndFrame.

(** The texture formats of the graphics API in use
    ([Graphics::GetFloat32Format] and its siblings are defined per API,
    outside the stitcher). *)
Class GraphicsFormats := mkGraphicsFormats {
  GetFloat32Format : Z;
  GetRGFloat32Format : Z;
  GetRGBAFloat32Format : Z
}.

(** What the GPU does with texture contents.  [Image] is the contents of a
    texture; [upload] is [Texture2D::SetData] on a region, [readback] is
    [Texture2D::GetData] into a destination array, and [render] gives the new
    contents of a view's render target from the present contents of the
    textures. *)
Record Backend := mkBackend {
  Image : Type;
  blank : Image;
  upload : Image -> Z -> Z -> Z -> Z -> Z -> list Vector4 -> Image;
  readback : Image -> Z -> list Vector4 -> list Vector4;
  render : View -> (TextureRef -> Image) -> Image
}.

(** Return texture format for given amount of channels. *)
Definition GetStitchTextureFormat `{GraphicsFormats} (NDEBUG : bool) (numChannels : Z)
    : Outcome Z :=
  match numChannels with
  | 1 => Returned GetFloat32Format
  | 2 => Returned GetRGFloat32Format
  | 4 => Returned GetRGBAFloat32Format
  | _ =>
      (assert NDEBUG false ;;
       Returned 0)%outcome
  end.

Inductive TextureUsage :=
| TEXTURE_STATIC | TEXTURE_DYNAMIC | TEXTURE_RENDERTARGET | TEXTURE_DEPTHSTENCIL.

Definition Context := nat.

Section Engine.

Context {formats : GraphicsFormats}.
Variable B : Backend.
  (** State of a freshly created [Camera] component (the engine's defaults). *)
Variable newCamera : Camera.

(** Modelled from the spec: the engine class [Texture2D] is not part of
    the stitcher's sources.  A texture keeps the mip level count, size,
    format and usage it was given, and its contents. *)
Record Texture2D := mkTexture2D {
    requestedLevels_ : Z;
    width_ : Z;
    height_ : Z;
    format_ : Z;
    usage_ : TextureUsage;
    image_ : Image B
  }.

Definition Texture2D_make : Texture2D :=
    mkTexture2D 0 0 0 0 TEXTURE_STATIC (blank B).
Definition Texture2D_SetNumLevels (levels : Z) (t : Texture2D) : Texture2D :=
    mkTexture2D levels (width_ t) (height_ t) (format_ t) (usage_ t) (image_ t).
Definition Texture2D_SetSize (width height format : Z) (usage : TextureUsage)
      (t : Texture2D) : Texture2D :=
    mkTexture2D (requestedLevels_ t) width height format usage (blank B).
Definition Texture2D_withImage (img : Image B) (t : Texture2D) : Texture2D :=
    mkTexture2D (requestedLevels_ t) (width_ t) (height_ t) (format_ t) (usage_ t) img.

Record LightmapStitchingContext := mkLightmapStitchingContext {
    context_ : Context;
    lightmapSize_ : Z;
    pingTexture_ : Texture2D;
    pongTexture_ : Texture2D
  }.

  (** Dereference of a texture pointer. *)
Definition texture (ctx : LightmapStitchingContext) (r : TextureRef) : Texture2D :=
    match r with
    | pingTextureRef => pingTexture_ ctx
    | pongTextureRef => pongTexture_ ctx
    end.

  (** A method call through a texture pointer. *)
Definition onTexture (r : TextureRef) (f : Texture2D -> Texture2D)
      (ctx : LightmapStitchingContext) : LightmapStitchingContext :=
    match r with
    | pingTextureRef =>
        mkLightmapStitchingContext (context_ ctx) (lightmapSize_ ctx)
          (f (pingTexture_ ctx)) (pongTexture_ ctx)
    | pongTextureRef =>
        mkLightmapStitchingContext (context_ ctx) (lightmapSize_ ctx)
          (pingTexture_ ctx) (f (pongTexture_ ctx))
    end.

Definition InitializeStitchingContext (NDEBUG : bool) (context : Context)
      (lightmapSize numChannels : Z) : Outcome LightmapStitchingContext :=
    (let result :=
       mkLightmapStitchingContext context lightmapSize Texture2D_make Texture2D_make in
     textureFormat <- GetStitchTextureFormat NDEBUG numChannels ;;
     let result :=
       fold_left
         (fun result texture =>
            let size := to_int lightmapSize in
            let result := onTexture texture (Texture2D_SetNumLevels 1) result in
            let result := onTexture texture
                            (Texture2D_SetSize size size textureFormat TEXTURE_RENDERTARGET)
                            result in
            result)
         [pingTextureRef; pongTextureRef] result in
     Returned result)%outcome.

  (* ---------------------------------------------------------------- *)
  (** *** State and effects *)

  (** What the stitcher acts on: the stitching context it is given by
      reference (with the two textures it owns), whether the graphics device
      is able to begin a frame, and the trace of calls made so far (oldest
      first). *)
Record World := mkWorld {
    stitchingContext_ : LightmapStitchingContext;
    deviceReady_ : bool;
    calls_ : list Call
  }.

Definition M (A : Type) : Type := World -> A * World.

Definition ret {A} (a : A) : M A := fun w => (a, w).

Definition bind {A C} (m : M A) (k : A -> M C) : M C :=
    fun w => let (a, w') := m w in k a w'.

Notation "x <- m ;; k" := (bind m (fun x => k))
    (at level 61, m at next level, right associativity).
Notation "m ;; k" := (bind m (fun _ => k))
    (at level 61, right associativity).

Definition record (c : Call) : M unit :=
    fun w => (tt, mkWorld (stitchingContext_ w) (deviceReady_ w) (calls_ w ++ [c])).

Definition getContext : M LightmapStitchingContext :=
    fun w => (stitchingContext_ w, w).

Definition modifyContext (f : LightmapStitchingContext -> LightmapStitchingContext)
      : M unit :=
    fun w => (tt, mkWorld (f (stitchingContext_ w)) (deviceReady_ w) (calls_ w)).

  (** [n] rounds of a loop body over the loop's variables. *)
Fixpoint iterate {S} (n : nat) (body : S -> M S) (s : S) : M S :=
    match n with
    | O => ret s
    | Datatypes.S n' => s' <- body s ;; iterate n' body s'
    end.

  (** **** Engine services *)

Definition LoadRenderPath (name : string) : M RenderPath :=
    record (CallLoadRenderPath name) ;;
    ret (mkRenderPath name).

Definition Octree_Update (scene : Scene) : M unit :=
    record (CallOctreeUpdate scene).

Definition View_Update (view : View) : M unit :=
    record (CallViewUpdate view).

Definition Graphics_BeginFrame : M bool :=
    fun w => (deviceReady_ w,
              mkWorld (stitchingContext_ w) (deviceReady_ w)
                (calls_ w ++ [CallBeginFrame (deviceReady_ w)])).

Definition Graphics_EndFrame : M unit :=
    record CallEndFrame.

Definition URHO3D_LOGERROR (message : string) : M unit :=
    record (CallLogError message).

Definition Texture2D_SetData (t : TextureRef) (level x y width height : Z)
      (data : list Vector4) : M unit :=
    modifyContext
      (onTexture t (fun tex =>
         Texture2D_withImage (upload B (image_ tex) level x y width height data) tex)) ;;
    record (CallSetData t level x y width height).

Definition Texture2D_GetData (t : TextureRef) (level : Z) (dest : list Vector4)
      : M (list Vector4) :=
    ctx <- getContext ;;
    record (CallGetData t level) ;;
    ret (readback B (image_ (texture ctx t)) level dest).

Definition View_Render (view : View) : M unit :=
    match renderTarget_ view with
    | Some target =>
        ctx <- getContext ;;
        modifyContext
          (onTexture target
             (Texture2D_withImage (render B view (fun r => image_ (texture ctx r))))) ;;
        record (CallRender view)
    | None => record (CallRender view)
    end.

  (* ---------------------------------------------------------------- *)
  (** *** The stitcher *)

  (** Create scene for ping-pong stitching. *)
Definition CreateStitchingScene (settings : LightmapStitchingSettings)
      (inputTexture : TextureRef) (seamsModel : Model) : M Scene :=
    let scene := SceneOps.make in
    let scene := SceneOps.CreateComponent OctreeComponent scene in

    let scene :=
      let cameraNode := NodeOps.make "Camera" in
      let cameraNode := NodeOps.SetPosition Vector3C.UP cameraNode in
      let cameraNode := NodeOps.SetDirection Vector3C.DOWN cameraNode in

      let camera := newCamera in
      let camera := CameraOps.SetOrthographic true camera in
      let camera := CameraOps.SetOrthoSize F32.one camera in
      let camera := CameraOps.SetNearClip F32.tenth camera in
      let camera := CameraOps.SetNearClip F32.ten camera in
      SceneOps.AddChild (NodeOps.CreateComponent (CameraComponent camera) cameraNode) scene in

    let scene :=
      let backgroundNode := NodeOps.make "Background" in
      let material := MaterialOps.make in
      let technique := stitchBackgroundTechniqueName_ settings in
      let material := MaterialOps.SetTechnique 0 technique material in
      let material := MaterialOps.SetTexture TU_DIFFUSE inputTexture material in
      let material := MaterialOps.SetRenderOrder 0 material in

      let staticModel := StaticModelOps.make in
      let staticModel :=
        StaticModelOps.SetModel (CachedModel (stitchBackgroundModelName_ settings))
          staticModel in
      let staticModel := StaticModelOps.SetMaterial material staticModel in
      SceneOps.AddChild
        (NodeOps.CreateComponent (StaticModelComponent staticModel) backgroundNode) scene in

    let scene :=
      let seamsNode := NodeOps.make "Seams" in
      let seamsNode :=
        NodeOps.SetPosition
          (mkVector3 (F32.opp F32.half) F32.tenth (F32.opp F32.half)) seamsNode in

      let material := MaterialOps.make in
      let technique := stitchSeamsTechniqueName_ settings in
      let material := MaterialOps.SetTechnique 0 technique material in
      let material := MaterialOps.SetTexture TU_DIFFUSE inputTexture material in
      let material :=
        MaterialOps.SetShaderParameter "MatDiffColor"
          (mkColor F32.one F32.one F32.one (blendFactor_ settings)) material in
      let material := MaterialOps.SetRenderOrder 1 material in

      let staticModel := StaticModelOps.make in
      let staticModel := StaticModelOps.SetModel (GivenModel seamsModel) staticModel in
      let staticModel := StaticModelOps.SetMaterial material staticModel in
      SceneOps.AddChild
        (NodeOps.CreateComponent (StaticModelComponent staticModel) seamsNode) scene in

    Octree_Update scene ;;
    ret scene.

  (** Create View and Viewport for stitching. *)
Definition CreateStitchingViewAndViewport (scene : Scene) (renderPath : RenderPath)
      (outputTexture : TextureRef) : M (View * Viewport) :=
    (* Setup viewport *)
    let viewport := ViewportOps.make in
    let viewport := ViewportOps.SetCamera (SceneOps.GetCameraRecursive scene) viewport in
    let viewport := ViewportOps.SetRect IntRect_ZERO viewport in
    let viewport := ViewportOps.SetRenderPath renderPath viewport in
    let viewport := ViewportOps.SetScene scene viewport in

    (* Setup scene *)
    let view := ViewOps.make in
    let view := ViewOps.Define outputTexture viewport view in
    View_Update view ;;

    ret (view, viewport).

  (** The variables of the ping-pong loop. *)
Record PingPong := mkPingPong {
    currentTexture : TextureRef;
    swapTexture : TextureRef;
    currentView : View;
    swapView : View
  }.

  (** One round: render, then [ea::swap] of the texture pointers and of the
      view pointers. *)
Definition pingPongRound (s : PingPong) : M PingPong :=
    View_Render (currentView s) ;;
    let s := mkPingPong (swapTexture s) (currentTexture s) (currentView s) (swapView s) in
    let s := mkPingPong (currentTexture s) (swapTexture s) (swapView s) (currentView s) in
    ret s.

Definition quote : string := String (Ascii.ascii_of_nat 34) EmptyString.

Definition beginFrameError : string :=
    ("Failed to begin lightmap geometry buffer rendering " ++ quote ++ "{}" ++ quote)%string.

  (** [stitchingContext] is the context of the world state and [imageData],
      passed by reference in the source, is returned with its new contents. *)
Definition StitchLightmapSeams (imageData : list Vector4)
      (settings : LightmapStitchingSettings) (seamsModel : Model) : M (list Vector4) :=
    (* Initialize scenes and render path *)
    renderPath <- LoadRenderPath (renderPathName_ settings) ;;
    pingScene <- CreateStitchingScene settings pongTextureRef seamsModel ;;
    pongScene <- CreateStitchingScene settings pingTextureRef seamsModel ;;
    pingViewViewport <- CreateStitchingViewAndViewport pingScene renderPath pingTextureRef ;;
    pongViewViewport <- CreateStitchingViewAndViewport pongScene renderPath pongTextureRef ;;

    began <- Graphics_BeginFrame ;;
    if negb began then
      URHO3D_LOGERROR beginFrameError ;;
      ret imageData
    else
      (* Prepare for ping-pong *)
      let loop := mkPingPong pongTextureRef pingTextureRef
                    (fst pingViewViewport) (fst pongViewViewport) in

      stitchingContext <- getContext ;;
      let size := to_int (lightmapSize_ stitchingContext) in
      Texture2D_SetData (currentTexture loop) 0 0 0 size size imageData ;;

      (* Ping-pong rendering *)
      loop <- iterate (numIterations_ settings) pingPongRound loop ;;

      (* Finish *)
      imageData <- Texture2D_GetData (currentTexture loop) 0 imageData ;;
      Graphics_EndFrame ;;
      ret imageData.

End Engine.

(* ------------------------------------------------------------------ *)
(** ** A reference instance

    A graphics API and a GPU to run the definitions on: the float formats of
    OpenGL, textures that hold exactly the texels uploaded to them, and a
    render pass that copies the first sampled texture to the target. *)

#[local] Instance openGLFormats : GraphicsFormats :=
  mkGraphicsFormats 33326 33328 34836.

Definition exactBackend : Backend :=
  mkBackend (list Vector4) []
    (fun _ _ _ _ _ _ data => data)
    (fun image _ _ => image)
    (fun view images =>
       match ViewOps.sampledTextures view with
       | r :: _ => images r
       | [] => []
       end).

Definition engineCamera : Camera :=
  mkCamera false (F32.of_Z 20) F32.tenth (F32.of_Z 1000).

Definition sampleSettings (numIterations : nat) : LightmapStitchingSettings :=
  mkLightmapStitchingSettings numIterations F32.half
    "RenderPaths/Forward.xml" "Techniques/DiffUnlit.xml" "Models/Plane.mdl"
    "Techniques/DiffUnlitAlpha.xml".

Definition sampleSeam : LightmapSeam :=
  mkLightmapSeam
    (mkVector2 F32.zero F32.zero, mkVector2 F32.one F32.zero)
    (mkVector2 F32.zero F32.one, mkVector2 F32.one F32.one).

Definition sampleSeams : LightmapSeamVector := [sampleSeam].

Definition sampleTexel (z : Z) : Vector4 :=
  mkVector4 (F32.of_Z z) F32.zero F32.zero F32.one.

Definition sampleImage : list Vector4 := map sampleTexel [1; 2; 3; 4].

Definition sampleWorld (deviceReady : bool) : World exactBackend :=
  match InitializeStitchingContext exactBackend false 0%nat 2 4 with
  | Returned ctx => mkWorld exactBackend ctx deviceReady []
  | AssertionFailed =>
      mkWorld exactBackend
        (mkLightmapStitchingContext exactBackend 0%nat 0
           (Texture2D_make exactBackend) (Texture2D_make exactBackend))
        deviceReady []
  end.

(* ------------------------------------------------------------------ *)
(** ** Graphics implementation state (bgfx) *)

(** [static_cast<unsigned>] of an integer: reduction modulo 2^32. *)
Definition to_unsigned (z : Z) : Z := z mod UINT_RANGE.

Module GraphicsImpl.

(** The two members the source assigns: the current view ([uint8_t]) and the
    draw distance key. *)
Record t := mk {
  view_ : Z;
  drawDistance_ : Z
}.

Definition SetCurrentView (view : Z) (g : t) : t :=
  mk view (drawDistance_ g).

(** [unsigned mask = -signed(drawDistance >> 31) | 0x80000000;
     drawDistance_ = drawDistance ^ mask;]
    The shift gives 0 or 1, its negation as [signed] 0 or -1, which the
    bitwise or with the unsigned literal converts to [unsigned]. *)
Definition SetDrawDistance (drawDistance : Z) (g : t) : t :=
  let mask :=
    Z.lor (to_unsigned (- to_int (Z.shiftr drawDistance 31))) 0x80000000 in
  mk (view_ g) (Z.lxor drawDistance mask).

End GraphicsImpl.

(* ------------------------------------------------------------------ *)
(** ** Material techniques and passes *)

(** Lighting mode of a pass. *)
Inductive PassLightingMode := LIGHTING_UNLIT | LIGHTING_PERVERTEX | LIGHTING_PERPIXEL.

Module Pass.

(** Material rendering pass.  The blend, cull and compare modes are the
    numbers of the engine's enumerations; the caches of compiled shaders are
    not part of the record. *)
Record t := mk {
  index_ : nat;
  blendMode_ : Z;
  cullMode_ : Z;
  depthTestMode_ : Z;
  lightingMode_ : PassLightingMode;
  shadersLoadedFrameNumber_ : Z;
  depthWrite_ : bool;
  alphaToCoverage_ : bool;
  isDesktop_ : bool;
  vertexShaderName_ : string;
  pixelShaderName_ : string;
  vertexShaderDefines_ : string;
  pixelShaderDefines_ : string;
  vertexShaderDefineExcludes_ : string;
  pixelShaderDefineExcludes_ : string;
  name_ : string
}.

Definition GetName (p : t) : string := name_ p.
Definition GetIndex (p : t) : nat := index_ p.
Definition GetBlendMode (p : t) : Z := blendMode_ p.
Definition GetCullMode (p : t) : Z := cullMode_ p.
Definition GetDepthTestMode (p : t) : Z := depthTestMode_ p.
Definition GetLightingMode (p : t) : PassLightingMode := lightingMode_ p.
Definition GetShadersLoadedFrameNumber (p : t) : Z := shadersLoadedFrameNumber_ p.
Definition GetDepthWrite (p : t) : bool := depthWrite_ p.
Definition GetAlphaToCoverage (p : t) : bool := alphaToCoverage_ p.
Definition IsDesktop (p : t) : bool := isDesktop_ p.

End Pass.

Module Technique.

(** Material technique: the passes are held by shared pointers, which may be
    null; a [Pass*] result is the pass pointed to, or [None] for
    [nullptr]. *)
Record t := mk {
  isDesktop_ : bool;
  desktopSupport_ : bool;
  passes_ : list (option Pass.t)
}.

(** [passes_[passIndex]], only evaluated for an index in range. *)
Definition passAt (tech : t) (passIndex : nat) : option Pass.t :=
  nth passIndex (passes_ tech) None.

(** Return whether requires desktop level hardware. *)
Definition IsDesktop (tech : t) : bool := isDesktop_ tech.

(** Return whether technique is supported by the current hardware. *)
Definition IsSupported (tech : t) : bool :=
  negb (isDesktop_ tech) || desktopSupport_ tech.

(** Return whether has a pass. *)
Definition HasPass (passIndex : nat) (tech : t) : bool :=
  (passIndex <? List.length (passes_ tech))%nat
  && match passAt tech passIndex with Some _ => true | None => false end.

(** Return a pass, or null if not found. *)
Definition GetPass (passIndex : nat) (tech : t) : option Pass.t :=
  if (passIndex <? List.length (passes_ tech))%nat then passAt tech passIndex else None.

(** Return a pass that is supported for rendering, or null if not found. *)
Definition GetSupportedPass (passIndex : nat) (tech : t) : option Pass.t :=
  let pass :=
    if (passIndex <? List.length (passes_ tech))%nat then passAt tech passIndex else None in
  match pass with
  | Some p => if negb (Pass.IsDesktop p) || desktopSupport_ tech then pass else None
  | None => None
  end.

End Technique.

(* ------------------------------------------------------------------ *)
(** ** Definitions used to state the properties *)

(** The five floats the description of the seam geometry gives for end point
    [i] of a seam: own-side X, the constant 0.0, own-side Y mirrored as
    [1 - y], other-side X, other-side Y. *)
Definition endpointVertex (seam : LightmapSeam) (i : nat) : list float :=
  [ x2_ (at2 (positions_ seam) i);
    F32.zero;
    F32.sub F32.one (y2_ (at2 (positions_ seam) i));
    x2_ (at2 (otherPositions_ seam) i);
    y2_ (at2 (otherPositions_ seam) i) ].

(** Both end points of a seam, in order. *)
Definition seamVertices (seam : LightmapSeam) : list float :=
  endpointVertex seam 0 ++ endpointVertex seam 1.

(** The channel counts the stitcher supports. *)
Definition validChannels (numChannels : Z) : Prop :=
  numChannels = 1 \/ numChannels = 2 \/ numChannels = 4.

(** The texture a call writes to, if it writes to one. *)
Definition writtenTexture (c : Call) : option TextureRef :=
  match c with
  | CallSetData t _ _ _ _ _ => Some t
  | CallRender v => renderTarget_ v
  | _ => None
  end.

(** The texture written by the latest writing call of a trace. *)
Definition lastWritten (calls : list Call) : option TextureRef :=
  fold_left
    (fun latest c => match writtenTexture c with Some t => Some t | None => latest end)
    calls None.

Definition isRender (c : Call) : bool :=
  match c with CallRender _ => true | _ => false end.

Definition isSetData (c : Call) : bool :=
  match c with CallSetData _ _ _ _ _ _ => true | _ => false end.

Definition isGetData (c : Call) : bool :=
  match c with CallGetData _ _ => true | _ => false end.

Definition isEndFrame (c : Call) : bool :=
  match c with CallEndFrame => true | _ => false end.

(** Calls that build or refresh a scene or a view. *)
Definition isSetup (c : Call) : bool :=
  match c with
  | CallLoadRenderPath _ | CallOctreeUpdate _ | CallViewUpdate _ => true
  | _ => false
  end.

Definition count (p : Call -> bool) (calls : list Call) : nat :=
  List.length (filter p calls).

(** [a; b; a; b; ...], [n] elements. *)
Fixpoint alternate {A} (n : nat) (a b : A) : list A :=
  match n with
  | O => []
  | S n' => a :: alternate n' b a
  end.

(** Exchange of the roles of the two textures and of the two views. *)
Definition swapRoles (s : PingPong) : PingPong :=
  mkPingPong (swapTexture s) (currentTexture s) (swapView s) (currentView s).

(** The stitching context after a view has been rendered. *)
Definition afterRender (B : Backend) (view : View)
    (ctx : LightmapStitchingContext B) : LightmapStitchingContext B :=
  match renderTarget_ view with
  | Some target =>
      onTexture B target
        (Texture2D_withImage B (render B view (fun r => image_ B (texture B ctx r)))) ctx
  | None => ctx
  end.

Definition afterRenders (B : Backend) (views : list View)
    (ctx : LightmapStitchingContext B) : LightmapStitchingContext B :=
  fold_left (fun c v => afterRender B v c) views ctx.

(** The calls a run has added to the trace. *)
Definition newCalls {B : Backend} (before after : World B) : list Call :=
  skipn (List.length (calls_ B before)) (calls_ B after).

(** The scenes and views [StitchLightmapSeams] builds; they do not depend on
    the state of the world they are built in. *)
Definition emptyWorld (B : Backend) : World B :=
  mkWorld B
    (mkLightmapStitchingContext B 0%nat 0 (Texture2D_make B) (Texture2D_make B))
    false [].

Definition sceneFor (B : Backend) (newCamera : Camera)
    (settings : LightmapStitchingSettings) (inputTexture : TextureRef)
    (seamsModel : Model) : Scene :=
  fst (CreateStitchingScene B newCamera settings inputTexture seamsModel (emptyWorld B)).

Definition viewFor (B : Backend) (scene : Scene) (renderPath : RenderPath)
    (outputTexture : TextureRef) : View :=
  fst (fst (CreateStitchingViewAndViewport B scene renderPath outputTexture (emptyWorld B))).

Definition viewportFor (B : Backend) (scene : Scene) (renderPath : RenderPath)
    (outputTexture : TextureRef) : Viewport :=
  snd (fst (CreateStitchingViewAndViewport B scene renderPath outputTexture (emptyWorld B))).

Definition pingSceneOf (B : Backend) (newCamera : Camera)
    (settings : LightmapStitchingSettings) (seamsModel : Model) : Scene :=
  sceneFor B newCamera settings pongTextureRef seamsModel.

Definition pongSceneOf (B : Backend) (newCamera : Camera)
    (settings : LightmapStitchingSettings) (seamsModel : Model) : Scene :=
  sceneFor B newCamera settings pingTextureRef seamsModel.

Definition pingViewOf (B : Backend) (newCamera : Camera)
    (settings : LightmapStitchingSettings) (seamsModel : Model) : View :=
  viewFor B (pingSceneOf B newCamera settings seamsModel)
    (mkRenderPath (renderPathName_ settings)) pingTextureRef.

Definition pongViewOf (B : Backend) (newCamera : Camera)
    (settings : LightmapStitchingSettings) (seamsModel : Model) : View :=
  viewFor B (pongSceneOf B newCamera settings seamsModel)
    (mkRenderPath (renderPathName_ settings)) pongTextureRef.

(** The calls made before the frame is begun. *)
Definition setupCalls (B : Backend) (newCamera : Camera)
    (settings : LightmapStitchingSettings) (seamsModel : Model) : list Call :=
  [ CallLoadRenderPath (renderPathName_ settings);
    CallOctreeUpdate (pingSceneOf B newCamera settings seamsModel);
    CallOctreeUpdate (pongSceneOf B newCamera settings seamsModel);
    CallViewUpdate (pingViewOf B newCamera settings seamsModel);
    CallViewUpdate (pongViewOf B newCamera settings seamsModel) ].

(** The stitching context after the upload of [imageData] into a texture. *)
Definition afterUpload (B : Backend) (t : TextureRef) (imageData : list Vector4)
    (ctx : LightmapStitchingContext B) : LightmapStitchingContext B :=
  let size := to_int (lightmapSize_ B ctx) in
  onTexture B t
    (fun tex =>
       Texture2D_withImage B (upload B (image_ B tex) 0 0 0 size size imageData) tex)
    ctx.

(** The texture that is current after [n] rounds. *)
Definition currentAfter (n : nat) : TextureRef :=
  if Nat.even n then pongTextureRef else pingTextureRef.

(** A world with more calls in its trace. *)
Definition logged {B : Backend} (w : World B) (cs : list Call) : World B :=
  mkWorld B (stitchingContext_ B w) (deviceReady_ B w) (calls_ B w ++ cs).

(** The draw distance key that [SetDrawDistance] stores. *)
Definition drawDistanceKey (drawDistance : Z) : Z :=
  GraphicsImpl.drawDistance_
    (GraphicsImpl.SetDrawDistance drawDistance (GraphicsImpl.mk 0 0)).

(** The number a 32-bit word denotes when bit 31 is read as a sign and the
    low 31 bits as a magnitude. *)
Definition signMagnitude (u : Z) : Z :=
  if u <? 2 ^ 31 then u else - (u - 2 ^ 31).

Definition isBeginFrame (c : Call) : bool :=
  match c with CallBeginFrame _ => true | _ => false end.

(** Calls that read or write the contents of a texture. *)
Definition touchesTexture (c : Call) : bool :=
  isSetData c || isRender c || isGetData c.

(** [n] passes over an image, the first by [passPing], the second by
    [passPong], and so on in turns. *)
Fixpoint passChain {I} (passPing passPong : I -> I) (n : nat) (image : I) : I :=
  match n with
  | O => image
  | S k => (if Nat.even k then passPing else passPong) (passChain passPing passPong k image)
  end.

(** A pass and a technique to run the accessors on. *)
Definition samplePass (name : string) (isDesktop : bool) : Pass.t :=
  Pass.mk 0 0 0 0 LIGHTING_UNLIT 0 true false isDesktop
    "Unlit" "Unlit" "" "" "" "" name.

Definition sampleTechnique (desktopSupport : bool) : Technique.t :=
  Technique.mk false desktopSupport
    [Some (samplePass "base" false); None; Some (samplePass "light" true)].

(** The binary32 number with a given sign bit and 31 magnitude bits: 8 bits
    of biased exponent above 23 bits of fraction. *)
Definition decodeMagnitude (sign : bool) (magnitude : Z) : spec_float :=
  let exponent := magnitude / 2 ^ 23 in
  let fraction := magnitude mod 2 ^ 23 in
  if exponent =? 255 then
    if fraction =? 0 then S754_infinity sign else S754_nan
  else if exponent =? 0 then
    if fraction =? 0 then S754_zero sign
    else S754_finite sign (Z.to_pos fraction) (-149)
  else S754_finite sign (Z.to_pos (2 ^ 23 + fraction)) (exponent - 150).

(** The binary32 number a 32-bit word is the bit pattern of. *)
Definition decodeFloat32 (u : Z) : spec_float :=
  decodeMagnitude (2 ^ 31 <=? u) (u mod 2 ^ 31).

(* ================================================================== *)
(** * Properties *)

(** ** The definitions at work *)

Example to_int_wraps : to_int 2147483648 = -2147483648 /\ to_int 2147483647 = 2147483647.
Proof. split; reflexivity. Qed.

Example seamsVertexData_sample :
  seamsVertexData sampleSeams
  = [ F32.zero; F32.zero; F32.one; F32.zero; F32.one;
      F32.one; F32.zero; F32.one; F32.one; F32.one ].
Proof. reflexivity. Qed.

Example CreateSeamsModel_empty :
  ModelOps.GetGeometry 0 0 (CreateSeamsModel [])
  = Some (mkGeometry [Some (mkVertexBuffer true 0 vertexElements [])] None
            LINE_LIST 0 0 0 0).
Proof. reflexivity. Qed.

Example GetStitchTextureFormat_sample :
  map (GetStitchTextureFormat false) [1; 2; 3; 4]
  = [Returned 33326; Returned 33328; AssertionFailed; Returned 34836].
Proof. reflexivity. Qed.

(** Two rounds: upload to pong, render into ping, render into pong, read
    pong back. *)
Example StitchLightmapSeams_two_rounds :
  let world := sampleWorld true in
  let run :=
    StitchLightmapSeams exactBackend engineCamera sampleImage (sampleSettings 2)
      (CreateSeamsModel sampleSeams) world in
  map writtenTexture (skipn 6 (newCalls world (snd run)))
  = [Some pongTextureRef; Some pingTextureRef; Some pongTextureRef; None; None] /\
  filter isGetData (newCalls world (snd run)) = [CallGetData pongTextureRef 0] /\
  fst run = sampleImage.
Proof. repeat split. Qed.

Example StitchLightmapSeams_device_lost :
  let world := sampleWorld false in
  let run :=
    StitchLightmapSeams exactBackend engineCamera sampleImage (sampleSettings 2)
      (CreateSeamsModel sampleSeams) world in
  skipn 5 (newCalls world (snd run))
  = [CallBeginFrame false; CallLogError beginFrameError] /\
  fst run = sampleImage.
Proof. repeat split. Qed.

(** ** Seam vertex buffer and seam model *)

Lemma pushEndpoint_app (seam : LightmapSeam) (acc : list float) (i : nat) :
  pushEndpoint seam acc i = acc ++ endpointVertex seam i.
Proof.
  unfold pushEndpoint, push_back, endpointVertex.
  repeat rewrite <- app_assoc. reflexivity.
Qed.

Lemma pushSeam_app (acc : list float) (seam : LightmapSeam) :
  pushSeam acc seam = acc ++ seamVertices seam.
Proof.
  unfold pushSeam, seamVertices. simpl.
  rewrite !pushEndpoint_app, <- app_assoc. reflexivity.
Qed.

Lemma fold_pushSeam (seams : LightmapSeamVector) :
  forall acc, fold_left pushSeam seams acc = acc ++ flat_map seamVertices seams.
Proof.
  induction seams as [|seam seams IH]; intros acc; simpl.
  - now rewrite app_nil_r.
  - rewrite IH, pushSeam_app, <- app_assoc. reflexivity.
Qed.

Lemma seamsVertexData_flat_map (seams : LightmapSeamVector) :
  seamsVertexData seams = flat_map seamVertices seams.
Proof. unfold seamsVertexData. now rewrite fold_pushSeam. Qed.

Lemma seamVertices_length (seam : LightmapSeam) :
  List.length (seamVertices seam) = 10%nat.
Proof. reflexivity. Qed.

Lemma seamsVertexData_length (seams : LightmapSeamVector) :
  List.length (seamsVertexData seams) = (List.length seams * 2 * 5)%nat.
Proof.
  rewrite seamsVertexData_flat_map.
  induction seams as [|seam seams IH]; simpl; [reflexivity|].
  rewrite IH. lia.
Qed.

(** The buffer is sized for exactly the floats that were pushed, so
    [SetData] takes all of them. *)
Lemma CreateSeamsVertexBuffer_data (seams : LightmapSeamVector) :
  shadowData_ (CreateSeamsVertexBuffer seams) = seamsVertexData seams.
Proof.
  unfold CreateSeamsVertexBuffer, VertexBufferOps.SetData. simpl.
  apply firstn_all2. rewrite seamsVertexData_length. lia.
Qed.

Lemma skipn_flat_map_seam (seams : LightmapSeamVector) :
  forall j seam,
    nth_error seams j = Some seam ->
    skipn (10 * j) (flat_map seamVertices seams)
    = seamVertices seam ++ flat_map seamVertices (skipn (S j) seams).
Proof.
  induction seams as [|s seams IH]; intros [|j] seam H; simpl in H; try discriminate.
  - injection H as ->. reflexivity.
  - replace (10 * S j)%nat with (10 * j + 10)%nat by lia.
    change (skipn (S (S j)) (s :: seams)) with (skipn (S j) seams).
    rewrite <- (IH j seam H), <- skipn_skipn.
    reflexivity.
Qed.

(** C5: for a seam vector of any size [k], zero included, the model that
    [CreateSeamsModel] returns has a single vertex buffer, sized for [2k]
    vertices and holding [2k] vertices' worth of floats, and a single
    geometry that draws a line list of [2k] vertices from that buffer, with
    no indices and no index buffer. *)
Theorem CreateSeamsModel_geometry (seams : LightmapSeamVector) :
  let k := List.length seams in
  let model := CreateSeamsModel seams in
  exists vertexBuffer geometry,
    modelVertexBuffers_ model = [vertexBuffer] /\
    vertexCount_ vertexBuffer = (2 * k)%nat /\
    List.length (shadowData_ vertexBuffer)
      = (2 * k * vertexFloats (elements_ vertexBuffer))%nat /\
    geometries_ model = [[Some geometry]] /\
    ModelOps.GetGeometry 0 0 model = Some geometry /\
    geometryVertexBuffers_ geometry = [Some vertexBuffer] /\
    primitiveType_ geometry = LINE_LIST /\
    vertexStart_ geometry = 0%nat /\
    drawVertexCount_ geometry = (2 * k)%nat /\
    indexStart_ geometry = 0%nat /\
    indexCount_ geometry = 0%nat /\
    geometryIndexBuffer_ geometry = None.
Proof.
  intros k model.
  exists (CreateSeamsVertexBuffer seams).
  eexists. subst model. unfold CreateSeamsModel.
  repeat split; try reflexivity.
  - simpl. subst k. lia.
  - rewrite CreateSeamsVertexBuffer_data, seamsVertexData_length.
    simpl. subst k. lia.
  - simpl. subst k. lia.
Qed.

(** C6: in the vertex data of the buffer built by [CreateSeamsVertexBuffer],
    the vertex of end point [i] (0 or 1) of the [j]-th seam is vertex number
    [2j + i]; it is made of exactly five floats: the own-side X, the constant
    0.0, the own-side Y mirrored as [1 - y], the other-side X and the
    other-side Y.  The data holds nothing but these vertices. *)
Theorem CreateSeamsVertexBuffer_vertices
    (seams : LightmapSeamVector) (j i : nat) (seam : LightmapSeam) :
  nth_error seams j = Some seam ->
  (i < 2)%nat ->
  let data := shadowData_ (CreateSeamsVertexBuffer seams) in
  List.length data = (5 * (2 * List.length seams))%nat /\
  firstn 5 (skipn (5 * (2 * j + i)) data)
  = [ x2_ (at2 (positions_ seam) i);
      F32.zero;
      F32.sub F32.one (y2_ (at2 (positions_ seam) i));
      x2_ (at2 (otherPositions_ seam) i);
      y2_ (at2 (otherPositions_ seam) i) ].
Proof.
  intros Hj Hi data. subst data.
  rewrite CreateSeamsVertexBuffer_data. split.
  - rewrite seamsVertexData_length. lia.
  - rewrite seamsVertexData_flat_map.
    replace (5 * (2 * j + i))%nat with (5 * i + 10 * j)%nat by lia.
    rewrite <- skipn_skipn, (skipn_flat_map_seam seams j seam Hj).
    destruct i as [|[|i]]; [reflexivity | reflexivity | lia].
Qed.

Lemma CreateSeamsVertexBuffer_vertices_witness :
  let data := shadowData_ (CreateSeamsVertexBuffer sampleSeams) in
  List.length data = 10%nat /\
  firstn 5 (skipn 5 data) = [F32.one; F32.zero; F32.one; F32.one; F32.one].
Proof.
  exact (CreateSeamsVertexBuffer_vertices sampleSeams 0 1 sampleSeam
           eq_refl (le_n 2)).
Defined.

(** ** Texture format and stitching context *)

Lemma GetStitchTextureFormat_default `{GraphicsFormats} (NDEBUG : bool) (numChannels : Z) :
  ~ validChannels numChannels ->
  GetStitchTextureFormat NDEBUG numChannels
  = (assert NDEBUG false ;; Returned 0)%outcome.
Proof.
  unfold validChannels. intros Hn.
  destruct numChannels as [|p|p]; try reflexivity.
  destruct p as [p|p|]; try reflexivity; [|tauto].
  destruct p as [p|p|]; try reflexivity; [|tauto].
  destruct p as [p|p|]; try reflexivity; tauto.
Qed.

Lemma GetStitchTextureFormat_valid `{GraphicsFormats} (NDEBUG : bool) (numChannels : Z) :
  validChannels numChannels ->
  exists format, GetStitchTextureFormat NDEBUG numChannels = Returned format.
Proof.
  intros [-> | [-> | ->]]; eexists; reflexivity.
Qed.

(** What [InitializeStitchingContext] does once the format is known. *)
Lemma InitializeStitchingContext_returned `{GraphicsFormats} (B : Backend)
    (NDEBUG : bool) (context : Context) (lightmapSize numChannels format : Z) :
  GetStitchTextureFormat NDEBUG numChannels = Returned format ->
  let t := mkTexture2D B 1 (to_int lightmapSize) (to_int lightmapSize) format
             TEXTURE_RENDERTARGET (blank B) in
  InitializeStitchingContext B NDEBUG context lightmapSize numChannels
  = Returned (mkLightmapStitchingContext B context lightmapSize t t).
Proof.
  intros Hf t. unfold InitializeStitchingContext. rewrite Hf. reflexivity.
Qed.

Lemma to_int_small (u : Z) : 0 <= u <= INT_MAX -> to_int u = u.
Proof.
  unfold to_int, INT_MAX, UINT_RANGE. intros Hu.
  rewrite Z.mod_small by lia.
  destruct (Z.leb_spec u (2 ^ 31 - 1)); lia.
Qed.

(** C7: [GetStitchTextureFormat] maps 1, 2 and 4 channels to the
    single-channel, two-channel and four-channel 32-bit float formats of the
    graphics API, whatever the build; these are three different results as
    the API's three formats are different.  For any other channel count the
    default branch runs [assert(0)] and then [return 0]: with assertions
    compiled in, the call ends in the failed assertion and returns no
    format. *)
Theorem GetStitchTextureFormat_channels `{GraphicsFormats}
    (NDEBUG : bool) (numChannels : Z) :
  GetFloat32Format <> GetRGFloat32Format ->
  GetFloat32Format <> GetRGBAFloat32Format ->
  GetRGFloat32Format <> GetRGBAFloat32Format ->
  ~ validChannels numChannels ->
  GetStitchTextureFormat NDEBUG 1 = Returned GetFloat32Format /\
  GetStitchTextureFormat NDEBUG 2 = Returned GetRGFloat32Format /\
  GetStitchTextureFormat NDEBUG 4 = Returned GetRGBAFloat32Format /\
  GetStitchTextureFormat NDEBUG 1 <> GetStitchTextureFormat NDEBUG 2 /\
  GetStitchTextureFormat NDEBUG 1 <> GetStitchTextureFormat NDEBUG 4 /\
  GetStitchTextureFormat NDEBUG 2 <> GetStitchTextureFormat NDEBUG 4 /\
  GetStitchTextureFormat NDEBUG numChannels
    = (assert NDEBUG false ;; Returned 0)%outcome /\
  GetStitchTextureFormat false numChannels = AssertionFailed.
Proof.
  intros H12 H14 H24 Hn.
  repeat split; try reflexivity; simpl; try congruence.
  - now apply GetStitchTextureFormat_default.
  - now rewrite GetStitchTextureFormat_default.
Qed.

Lemma not_validChannels_3 : ~ validChannels 3.
Proof. unfold validChannels. lia. Qed.

Lemma GetStitchTextureFormat_channels_witness :
  GetStitchTextureFormat true 1 = Returned 33326 /\
  GetStitchTextureFormat true 2 = Returned 33328 /\
  GetStitchTextureFormat true 4 = Returned 34836 /\
  GetStitchTextureFormat true 1 <> GetStitchTextureFormat true 2 /\
  GetStitchTextureFormat true 1 <> GetStitchTextureFormat true 4 /\
  GetStitchTextureFormat true 2 <> GetStitchTextureFormat true 4 /\
  GetStitchTextureFormat true 3 = Returned 0 /\
  GetStitchTextureFormat false 3 = AssertionFailed.
Proof.
  apply (@GetStitchTextureFormat_channels openGLFormats true 3).
  - simpl; lia.
  - simpl; lia.
  - simpl; lia.
  - exact not_validChannels_3.
Defined.

(** C8, at a size where it fails as stated: for a lightmap size of 2^31 the
    conversion to [int] gives -2^31, so the textures are not given the
    dimensions [lightmapSize] by [lightmapSize]. *)
Lemma InitializeStitchingContext_size_counterexample :
  exists ctx,
    InitializeStitchingContext exactBackend false 0%nat 2147483648 4 = Returned ctx /\
    lightmapSize_ exactBackend ctx = 2147483648 /\
    width_ exactBackend (pingTexture_ exactBackend ctx) = -2147483648 /\
    width_ exactBackend (pingTexture_ exactBackend ctx) <> lightmapSize_ exactBackend ctx.
Proof.
  eexists. split; [reflexivity|].
  split; [reflexivity|].
  split; [reflexivity|].
  simpl. discriminate.
Qed.

(** C8, amended: for every lightmap size up to 2^31 - 1 and valid channel
    count, [InitializeStitchingContext] returns a context in which the ping
    and the pong texture both have the dimensions [lightmapSize] by
    [lightmapSize], the format resolved from the channel count, a single mip
    level and render-target usage; so the two textures have identical
    dimensions and format. *)
Theorem InitializeStitchingContext_textures `{GraphicsFormats} (B : Backend)
    (NDEBUG : bool) (context : Context) (lightmapSize numChannels : Z) :
  validChannels numChannels ->
  0 <= lightmapSize <= INT_MAX ->
  exists ctx format,
    InitializeStitchingContext B NDEBUG context lightmapSize numChannels = Returned ctx /\
    GetStitchTextureFormat NDEBUG numChannels = Returned format /\
    lightmapSize_ B ctx = lightmapSize /\
    (forall r : TextureRef,
        requestedLevels_ B (texture B ctx r) = 1 /\
        width_ B (texture B ctx r) = lightmapSize /\
        height_ B (texture B ctx r) = lightmapSize /\
        format_ B (texture B ctx r) = format /\
        usage_ B (texture B ctx r) = TEXTURE_RENDERTARGET) /\
    width_ B (pingTexture_ B ctx) = width_ B (pongTexture_ B ctx) /\
    height_ B (pingTexture_ B ctx) = height_ B (pongTexture_ B ctx) /\
    format_ B (pingTexture_ B ctx) = format_ B (pongTexture_ B ctx).
Proof.
  intros Hv Hsize.
  destruct (GetStitchTextureFormat_valid NDEBUG numChannels Hv) as [format Hf].
  eexists. exists format.
  split; [exact (InitializeStitchingContext_returned B NDEBUG context lightmapSize
                   numChannels format Hf)|].
  split; [exact Hf|].
  split; [reflexivity|].
  split; [|repeat split].
  intros r. destruct r; simpl; rewrite (to_int_small lightmapSize Hsize); repeat split.
Qed.

Lemma InitializeStitchingContext_textures_witness :
  exists ctx format,
    InitializeStitchingContext exactBackend false 7%nat 4 2 = Returned ctx /\
    GetStitchTextureFormat false 2 = Returned format /\
    lightmapSize_ exactBackend ctx = 4 /\
    (forall r : TextureRef,
        requestedLevels_ exactBackend (texture exactBackend ctx r) = 1 /\
        width_ exactBackend (texture exactBackend ctx r) = 4 /\
        height_ exactBackend (texture exactBackend ctx r) = 4 /\
        format_ exactBackend (texture exactBackend ctx r) = format /\
        usage_ exactBackend (texture exactBackend ctx r) = TEXTURE_RENDERTARGET) /\
    width_ exactBackend (pingTexture_ exactBackend ctx)
      = width_ exactBackend (pongTexture_ exactBackend ctx) /\
    height_ exactBackend (pingTexture_ exactBackend ctx)
      = height_ exactBackend (pongTexture_ exactBackend ctx) /\
    format_ exactBackend (pingTexture_ exactBackend ctx)
      = format_ exactBackend (pongTexture_ exactBackend ctx).
Proof.
  apply (@InitializeStitchingContext_textures openGLFormats exactBackend false 7%nat 4 2).
  - unfold validChannels. right. left. reflexivity.
  - unfold INT_MAX. lia.
Defined.

(** C10: with assertions compiled out, a channel count other than 1, 2 and 4
    does not stop the program: [GetStitchTextureFormat] returns 0 and
    [InitializeStitchingContext] returns a context whose two textures were
    sized with the format 0. *)
Theorem InitializeStitchingContext_unchecked_format `{GraphicsFormats} (B : Backend)
    (context : Context) (lightmapSize numChannels : Z) :
  ~ validChannels numChannels ->
  GetStitchTextureFormat true numChannels = Returned 0 /\
  exists ctx,
    InitializeStitchingContext B true context lightmapSize numChannels = Returned ctx /\
    pingTexture_ B ctx
      = mkTexture2D B 1 (to_int lightmapSize) (to_int lightmapSize) 0
          TEXTURE_RENDERTARGET (blank B) /\
    pongTexture_ B ctx
      = mkTexture2D B 1 (to_int lightmapSize) (to_int lightmapSize) 0
          TEXTURE_RENDERTARGET (blank B) /\
    format_ B (pingTexture_ B ctx) = 0 /\
    format_ B (pongTexture_ B ctx) = 0.
Proof.
  intros Hn.
  assert (Hf : GetStitchTextureFormat true numChannels = Returned 0)
    by now rewrite GetStitchTextureFormat_default.
  split; [exact Hf|].
  eexists.
  split; [exact (InitializeStitchingContext_returned B true context lightmapSize
                   numChannels 0 Hf)|].
  repeat split.
Qed.

Lemma InitializeStitchingContext_unchecked_format_witness :
  GetStitchTextureFormat true 3 = Returned 0 /\
  exists ctx,
    InitializeStitchingContext exactBackend true 7%nat 4 3 = Returned ctx /\
    pingTexture_ exactBackend ctx
      = mkTexture2D exactBackend 1 (to_int 4) (to_int 4) 0 TEXTURE_RENDERTARGET [] /\
    pongTexture_ exactBackend ctx
      = mkTexture2D exactBackend 1 (to_int 4) (to_int 4) 0 TEXTURE_RENDERTARGET [] /\
    format_ exactBackend (pingTexture_ exactBackend ctx) = 0 /\
    format_ exactBackend (pongTexture_ exactBackend ctx) = 0.
Proof.
  apply (@InitializeStitchingContext_unchecked_format openGLFormats exactBackend 7%nat 4 3).
  exact not_validChannels_3.
Defined.

(** ** The stitching scene *)

(** What [CreateStitchingScene] stores in the scene: three child nodes; a
    camera at [Vector3::UP] looking down, orthographic, of ortho size 1, whose
    near clip distance is the 10.0 of the second [SetNearClip] call and whose
    far clip distance is the one a new camera has; the background at the
    origin and the seams node at (-0.5, 0.1, -0.5).  How the engine's camera
    turns these values into a view volume is not part of these sources. *)
Lemma CreateStitchingScene_stored (B : Backend) (newCamera : Camera)
    (settings : LightmapStitchingSettings) (inputTexture : TextureRef)
    (seamsModel : Model) (w : World B) :
  let scene := fst (CreateStitchingScene B newCamera settings inputTexture seamsModel w) in
  exists cameraNode camera backgroundNode seamsNode,
    children_ scene = [cameraNode; backgroundNode; seamsNode] /\
    SceneOps.GetChild "Camera" scene = Some cameraNode /\
    SceneOps.GetChild "Background" scene = Some backgroundNode /\
    SceneOps.GetChild "Seams" scene = Some seamsNode /\
    SceneOps.GetCameraRecursive scene = Some camera /\
    components_ cameraNode = [CameraComponent camera] /\
    position_ cameraNode = Vector3C.UP /\
    direction_ cameraNode = Vector3C.DOWN /\
    orthographic_ camera = true /\
    orthoSize_ camera = F32.one /\
    nearClip_ camera = F32.ten /\
    farClip_ camera = farClip_ newCamera /\
    position_ backgroundNode = Vector3C.ZERO /\
    position_ seamsNode = mkVector3 (F32.opp F32.half) F32.tenth (F32.opp F32.half).
Proof.
  intros scene. subst scene.
  do 4 eexists.
  split; [reflexivity|].
  repeat split; reflexivity.
Qed.

(** ** The stitching driver *)

Section Driver.

Variable B : Backend.
Variable newCamera : Camera.

Lemma View_Render_run (view : View) (w : World B) :
  View_Render B view w
  = (tt, mkWorld B (afterRender B view (stitchingContext_ B w)) (deviceReady_ B w)
           (calls_ B w ++ [CallRender view])).
Proof.
  unfold View_Render, afterRender.
  destruct (renderTarget_ view); reflexivity.
Qed.

Lemma pingPongRound_run (s : PingPong) (w : World B) :
  pingPongRound B s w
  = (swapRoles s,
     mkWorld B (afterRender B (currentView s) (stitchingContext_ B w)) (deviceReady_ B w)
       (calls_ B w ++ [CallRender (currentView s)])).
Proof.
  unfold pingPongRound, bind. rewrite View_Render_run. reflexivity.
Qed.

Lemma iterate_pingPongRound (n : nat) :
  forall (s : PingPong) (w : World B),
    iterate B n (pingPongRound B) s w
    = (Nat.iter n swapRoles s,
       mkWorld B
         (afterRenders B (alternate n (currentView s) (swapView s)) (stitchingContext_ B w))
         (deviceReady_ B w)
         (calls_ B w ++ map CallRender (alternate n (currentView s) (swapView s)))).
Proof.
  induction n as [|n IH]; intros s w.
  - simpl. unfold ret, afterRenders. simpl. rewrite app_nil_r.
    destruct w; reflexivity.
  - cbn [iterate]. unfold bind. rewrite pingPongRound_run, IH.
    rewrite Nat.iter_succ_r.
    cbn. rewrite <- app_assoc. reflexivity.
Qed.

Lemma iter_swapRoles (n : nat) (s : PingPong) :
  Nat.iter n swapRoles s = if Nat.even n then s else swapRoles s.
Proof.
  induction n as [|n IH].
  - reflexivity.
  - rewrite Nat.iter_succ, IH, Nat.even_succ, <- Nat.negb_even.
    destruct (Nat.even n); destruct s; reflexivity.
Qed.

(** Each engine service and builder, run in a world. *)

Lemma bind_run {A C} (m : M B A) (k : A -> M B C) (w w' : World B) (a : A) :
  m w = (a, w') -> bind B m k w = k a w'.
Proof. unfold bind. intros ->. reflexivity. Qed.

Lemma LoadRenderPath_run (name : string) (w : World B) :
  LoadRenderPath B name w = (mkRenderPath name, logged w [CallLoadRenderPath name]).
Proof. reflexivity. Qed.

Lemma CreateStitchingScene_run (settings : LightmapStitchingSettings)
    (inputTexture : TextureRef) (seamsModel : Model) (w : World B) :
  CreateStitchingScene B newCamera settings inputTexture seamsModel w
  = (sceneFor B newCamera settings inputTexture seamsModel,
     logged w [CallOctreeUpdate (sceneFor B newCamera settings inputTexture seamsModel)]).
Proof. reflexivity. Qed.

Lemma CreateStitchingViewAndViewport_run (scene : Scene) (renderPath : RenderPath)
    (outputTexture : TextureRef) (w : World B) :
  CreateStitchingViewAndViewport B scene renderPath outputTexture w
  = ((viewFor B scene renderPath outputTexture,
      viewportFor B scene renderPath outputTexture),
     logged w [CallViewUpdate (viewFor B scene renderPath outputTexture)]).
Proof. reflexivity. Qed.

Lemma Graphics_BeginFrame_run (w : World B) :
  Graphics_BeginFrame B w = (deviceReady_ B w, logged w [CallBeginFrame (deviceReady_ B w)]).
Proof. reflexivity. Qed.

Lemma URHO3D_LOGERROR_run (message : string) (w : World B) :
  URHO3D_LOGERROR B message w = (tt, logged w [CallLogError message]).
Proof. reflexivity. Qed.

Lemma Graphics_EndFrame_run (w : World B) :
  Graphics_EndFrame B w = (tt, logged w [CallEndFrame]).
Proof. reflexivity. Qed.

Lemma getContext_run (w : World B) :
  getContext B w = (stitchingContext_ B w, w).
Proof. reflexivity. Qed.

Lemma Texture2D_SetData_run (t : TextureRef) (size : Z) (data : list Vector4)
    (w : World B) :
  size = to_int (lightmapSize_ B (stitchingContext_ B w)) ->
  Texture2D_SetData B t 0 0 0 size size data w
  = (tt, mkWorld B (afterUpload B t data (stitchingContext_ B w)) (deviceReady_ B w)
           (calls_ B w ++ [CallSetData t 0 0 0 size size])).
Proof. intros ->. reflexivity. Qed.

Lemma Texture2D_GetData_run (t : TextureRef) (level : Z) (dest : list Vector4)
    (w : World B) :
  Texture2D_GetData B t level dest w
  = (readback B (image_ B (texture B (stitchingContext_ B w) t)) level dest,
     logged w [CallGetData t level]).
Proof. reflexivity. Qed.

Lemma currentTexture_iter (n : nat) (pingView pongView : View) :
  currentTexture
    (Nat.iter n swapRoles (mkPingPong pongTextureRef pingTextureRef pingView pongView))
  = currentAfter n.
Proof.
  rewrite iter_swapRoles. unfold currentAfter.
  destruct (Nat.even n); reflexivity.
Qed.

Ltac run_with lemma :=
  erewrite bind_run by (apply lemma);
  cbn [fst snd stitchingContext_ deviceReady_ calls_ logged].

(** What a run of [StitchLightmapSeams] returns and leaves behind. *)
Lemma StitchLightmapSeams_run (imageData : list Vector4)
    (settings : LightmapStitchingSettings) (seamsModel : Model) (w : World B) :
  let n := numIterations_ settings in
  let size := to_int (lightmapSize_ B (stitchingContext_ B w)) in
  let pingView := pingViewOf B newCamera settings seamsModel in
  let pongView := pongViewOf B newCamera settings seamsModel in
  let setup := setupCalls B newCamera settings seamsModel in
  let final :=
    afterRenders B (alternate n pingView pongView)
      (afterUpload B pongTextureRef imageData (stitchingContext_ B w)) in
  StitchLightmapSeams B newCamera imageData settings seamsModel w
  = if deviceReady_ B w then
      (readback B (image_ B (texture B final (currentAfter n))) 0 imageData,
       mkWorld B final true
         (calls_ B w ++ setup
          ++ [CallBeginFrame true; CallSetData pongTextureRef 0 0 0 size size]
          ++ map CallRender (alternate n pingView pongView)
          ++ [CallGetData (currentAfter n) 0; CallEndFrame]))
    else
      (imageData,
       mkWorld B (stitchingContext_ B w) false
         (calls_ B w ++ setup ++ [CallBeginFrame false; CallLogError beginFrameError])).
Proof.
  intros n size pingView pongView setup final.
  unfold StitchLightmapSeams.
  run_with LoadRenderPath_run.
  run_with CreateStitchingScene_run.
  run_with CreateStitchingScene_run.
  run_with CreateStitchingViewAndViewport_run.
  run_with CreateStitchingViewAndViewport_run.
  run_with Graphics_BeginFrame_run.
  destruct (deviceReady_ B w) eqn:Hready; cbn [negb].
  - run_with getContext_run.
    erewrite bind_run by (apply Texture2D_SetData_run; reflexivity).
    cbn [fst snd stitchingContext_ deviceReady_ calls_ logged currentTexture].
    run_with iterate_pingPongRound.
    cbn [currentView swapView].
    rewrite currentTexture_iter.
    run_with Texture2D_GetData_run.
    run_with Graphics_EndFrame_run.
    unfold ret, logged. subst final setup pingView pongView n size.
    unfold setupCalls, pingViewOf, pongViewOf, pingSceneOf, pongSceneOf.
    cbn [stitchingContext_ deviceReady_ calls_].
    rewrite ?Hready. repeat rewrite <- app_assoc. reflexivity.
  - run_with URHO3D_LOGERROR_run.
    unfold ret, logged. subst setup.
    unfold setupCalls, pingViewOf, pongViewOf, pingSceneOf, pongSceneOf.
    cbn [stitchingContext_ deviceReady_ calls_].
    rewrite ?Hready. repeat rewrite <- app_assoc. reflexivity.
Qed.

(** *** Facts about traces *)

Lemma newCalls_app (w w' : World B) (cs : list Call) :
  calls_ B w' = calls_ B w ++ cs -> newCalls w w' = cs.
Proof.
  unfold newCalls. intros ->.
  rewrite skipn_app, skipn_all, Nat.sub_diag. reflexivity.
Qed.

Lemma count_app (p : Call -> bool) (l1 l2 : list Call) :
  count p (l1 ++ l2) = (count p l1 + count p l2)%nat.
Proof. unfold count. now rewrite filter_app, length_app. Qed.

Lemma count_isRender_renders (views : list View) :
  count isRender (map CallRender views) = List.length views.
Proof.
  unfold count. induction views as [|v views IH]; simpl; [reflexivity|].
  now rewrite IH.
Qed.

Lemma alternate_length {A} (n : nat) :
  forall a b : A, List.length (alternate n a b) = n.
Proof.
  induction n as [|n IH]; intros a b; simpl; [reflexivity|].
  now rewrite IH.
Qed.

Lemma no_setup_in_renders (views : list View) :
  forallb (fun c => negb (isSetup c)) (map CallRender views) = true.
Proof. induction views as [|v views IH]; simpl; [reflexivity | exact IH]. Qed.

(** After rendering two views in turns, the texture written last is the
    target of the view whose turn came last. *)
Lemma lastWritten_renders (n : nat) :
  forall (a b : View) (ta tb : TextureRef) (latest : option TextureRef),
    renderTarget_ a = Some ta ->
    renderTarget_ b = Some tb ->
    fold_left
      (fun latest c => match writtenTexture c with Some t => Some t | None => latest end)
      (map CallRender (alternate n a b)) latest
    = match n with
      | O => latest
      | S _ => Some (if Nat.even n then tb else ta)
      end.
Proof.
  induction n as [|n IH]; intros a b ta tb latest Ha Hb.
  - reflexivity.
  - cbn [alternate map fold_left writtenTexture]. rewrite Ha.
    rewrite (IH b a tb ta (Some ta) Hb Ha).
    rewrite Nat.even_succ, <- Nat.negb_even.
    destruct n as [|n]; [reflexivity|].
    destruct (Nat.even (S n)); reflexivity.
Qed.

(** *** Runs of [StitchLightmapSeams] *)

(** C1: with [numIterations_ = 0] the loop body never runs.  When the frame
    begins, the calls made from there on are exactly one upload of the buffer
    into the pong texture, one readback from that same texture, and the end
    of the frame; the buffer the caller gets back is the round trip of its
    buffer through the pong texture.  So the buffer is unchanged whenever
    that round trip is exact, and it is unchanged as well when the frame
    does not begin. *)
Theorem StitchLightmapSeams_zero_iterations (imageData : list Vector4)
    (settings : LightmapStitchingSettings) (seamsModel : Model) (w : World B) :
  numIterations_ settings = 0%nat ->
  let run := StitchLightmapSeams B newCamera imageData settings seamsModel w in
  let calls := newCalls w (snd run) in
  let size := to_int (lightmapSize_ B (stitchingContext_ B w)) in
  let pong := image_ B (pongTexture_ B (stitchingContext_ B w)) in
  let roundTrip := readback B (upload B pong 0 0 0 size size imageData) 0 imageData in
  (deviceReady_ B w = true ->
     calls = setupCalls B newCamera settings seamsModel
             ++ [ CallBeginFrame true;
                  CallSetData pongTextureRef 0 0 0 size size;
                  CallGetData pongTextureRef 0;
                  CallEndFrame ] /\
     count isSetData calls = 1%nat /\
     count isGetData calls = 1%nat /\
     count isRender calls = 0%nat /\
     fst run = roundTrip) /\
  (roundTrip = imageData -> fst run = imageData).
Proof.
  intros Hn run calls size pong roundTrip.
  pose proof (StitchLightmapSeams_run imageData settings seamsModel w) as Hrun.
  cbv zeta in Hrun. rewrite Hn in Hrun. fold run in Hrun.
  destruct (deviceReady_ B w) eqn:Hready.
  - assert (Hcalls : calls = setupCalls B newCamera settings seamsModel
                             ++ [ CallBeginFrame true;
                                  CallSetData pongTextureRef 0 0 0 size size;
                                  CallGetData pongTextureRef 0;
                                  CallEndFrame ]).
    { subst calls. apply newCalls_app. rewrite Hrun. reflexivity. }
    assert (Hout : fst run = roundTrip) by (rewrite Hrun; reflexivity).
    split.
    + intros _. rewrite Hcalls. repeat split; try reflexivity. exact Hout.
    + intros Hexact. now rewrite Hout.
  - split.
    + discriminate.
    + intros _. rewrite Hrun. reflexivity.
Qed.

(** C2: when the frame begins and [numIterations_ = n], the loop renders and
    swaps exactly [n] times: its variables end up swapped [n] times and the
    trace holds [n] render calls.  Among the calls made before the readback,
    the texture written last is the pong texture (the current one at the
    upload) when [n] is even and the ping texture when [n] is odd, and the
    readback that follows reads that very texture. *)
Theorem StitchLightmapSeams_ping_pong (imageData : list Vector4)
    (settings : LightmapStitchingSettings) (seamsModel : Model) (w : World B) :
  deviceReady_ B w = true ->
  let n := numIterations_ settings in
  let run := StitchLightmapSeams B newCamera imageData settings seamsModel w in
  let calls := newCalls w (snd run) in
  let lastTexture := if Nat.even n then pongTextureRef else pingTextureRef in
  (forall (s : PingPong) (w0 : World B),
      fst (iterate B n (pingPongRound B) s w0) = Nat.iter n swapRoles s /\
      newCalls w0 (snd (iterate B n (pingPongRound B) s w0))
      = map CallRender (alternate n (currentView s) (swapView s))) /\
  count isRender calls = n /\
  exists writes,
    calls = writes ++ [CallGetData lastTexture 0; CallEndFrame] /\
    lastWritten writes = Some lastTexture /\
    fst run
    = readback B (image_ B (texture B (stitchingContext_ B (snd run)) lastTexture))
        0 imageData.
Proof.
  intros Hready n run calls lastTexture.
  pose proof (StitchLightmapSeams_run imageData settings seamsModel w) as Hrun.
  cbv zeta in Hrun. rewrite Hready in Hrun. fold run n in Hrun.
  fold (currentAfter n) in lastTexture.
  set (pingView := pingViewOf B newCamera settings seamsModel) in *.
  set (pongView := pongViewOf B newCamera settings seamsModel) in *.
  set (size := to_int (lightmapSize_ B (stitchingContext_ B w))) in *.
  set (writes := setupCalls B newCamera settings seamsModel
                 ++ [CallBeginFrame true; CallSetData pongTextureRef 0 0 0 size size]
                 ++ map CallRender (alternate n pingView pongView)).
  assert (Hcalls : calls = writes ++ [CallGetData lastTexture 0; CallEndFrame]).
  { subst calls. apply newCalls_app. rewrite Hrun. subst writes.
    cbn [snd calls_]. repeat rewrite <- app_assoc. reflexivity. }
  split; [|split].
  - intros s w0. rewrite iterate_pingPongRound. split; [reflexivity|].
    now apply newCalls_app.
  - rewrite Hcalls. subst writes.
    rewrite !count_app, count_isRender_renders, alternate_length.
    cbn. lia.
  - exists writes. split; [exact Hcalls|]. split.
    + subst writes. unfold lastWritten. rewrite !fold_left_app.
      rewrite (lastWritten_renders n pingView pongView pingTextureRef pongTextureRef)
        by reflexivity.
      subst lastTexture. unfold currentAfter.
      destruct n as [|n']; [reflexivity|].
      destruct (Nat.even (S n')); reflexivity.
    + rewrite Hrun. reflexivity.
Qed.

(** C3: when [BeginFrame] fails, [StitchLightmapSeams] logs the error and
    returns: the caller's buffer and the two textures are as they were, and
    after the scenes and views have been set up the only calls are the failed
    [BeginFrame] and the log entry; no upload, no render, no readback and no
    [EndFrame] is made. *)
Theorem StitchLightmapSeams_begin_frame_failure (imageData : list Vector4)
    (settings : LightmapStitchingSettings) (seamsModel : Model) (w : World B) :
  deviceReady_ B w = false ->
  let run := StitchLightmapSeams B newCamera imageData settings seamsModel w in
  let calls := newCalls w (snd run) in
  fst run = imageData /\
  stitchingContext_ B (snd run) = stitchingContext_ B w /\
  calls = setupCalls B newCamera settings seamsModel
          ++ [CallBeginFrame false; CallLogError beginFrameError] /\
  count isSetData calls = 0%nat /\
  count isRender calls = 0%nat /\
  count isGetData calls = 0%nat /\
  count isEndFrame calls = 0%nat.
Proof.
  intros Hready run calls.
  pose proof (StitchLightmapSeams_run imageData settings seamsModel w) as Hrun.
  cbv zeta in Hrun. rewrite Hready in Hrun. fold run in Hrun.
  assert (Hcalls : calls = setupCalls B newCamera settings seamsModel
                           ++ [CallBeginFrame false; CallLogError beginFrameError]).
  { subst calls. apply newCalls_app. rewrite Hrun. reflexivity. }
  rewrite Hcalls, Hrun. repeat split.
Qed.

(** C4: both scenes and both views are built once, before the frame is begun
    and so before the loop: the ping scene samples the pong texture only and
    its view renders into the ping texture, the pong scene samples the ping
    texture only and its view renders into the pong texture.  Nothing is
    built afterwards; the upload goes to the pong texture, and the rounds
    render the ping view and the pong view in turns, the ping view first, so
    that the first pass reads the uploaded data.  (The scene and the view
    that are built do not depend on the world they are built in.) *)
Theorem StitchLightmapSeams_scene_wiring (imageData : list Vector4)
    (settings : LightmapStitchingSettings) (seamsModel : Model) (w : World B) :
  let n := numIterations_ settings in
  let run := StitchLightmapSeams B newCamera imageData settings seamsModel w in
  let calls := newCalls w (snd run) in
  let size := to_int (lightmapSize_ B (stitchingContext_ B w)) in
  let renderPath := mkRenderPath (renderPathName_ settings) in
  let pingScene :=
    fst (CreateStitchingScene B newCamera settings pongTextureRef seamsModel w) in
  let pongScene :=
    fst (CreateStitchingScene B newCamera settings pingTextureRef seamsModel w) in
  let pingView :=
    fst (fst (CreateStitchingViewAndViewport B pingScene renderPath pingTextureRef w)) in
  let pongView :=
    fst (fst (CreateStitchingViewAndViewport B pongScene renderPath pongTextureRef w)) in
  ViewOps.sceneTextures pingScene = [pongTextureRef; pongTextureRef] /\
  ViewOps.sceneTextures pongScene = [pingTextureRef; pingTextureRef] /\
  renderTarget_ pingView = Some pingTextureRef /\
  renderTarget_ pongView = Some pongTextureRef /\
  ViewOps.sampledTextures pingView = [pongTextureRef; pongTextureRef] /\
  ViewOps.sampledTextures pongView = [pingTextureRef; pingTextureRef] /\
  calls = [ CallLoadRenderPath (renderPathName_ settings);
            CallOctreeUpdate pingScene;
            CallOctreeUpdate pongScene;
            CallViewUpdate pingView;
            CallViewUpdate pongView;
            CallBeginFrame (deviceReady_ B w) ]
          ++ (if deviceReady_ B w then
                [CallSetData pongTextureRef 0 0 0 size size]
                ++ map CallRender (alternate n pingView pongView)
                ++ [CallGetData (currentAfter n) 0; CallEndFrame]
              else [CallLogError beginFrameError]) /\
  forallb isSetup (firstn 5 calls) = true /\
  forallb (fun c => negb (isSetup c)) (skipn 5 calls) = true.
Proof.
  intros n run calls size renderPath pingScene pongScene pingView pongView.
  pose proof (StitchLightmapSeams_run imageData settings seamsModel w) as Hrun.
  cbv zeta in Hrun. fold run n size in Hrun.
  do 6 (split; [reflexivity|]).
  assert (Hcalls :
    calls = [ CallLoadRenderPath (renderPathName_ settings);
              CallOctreeUpdate pingScene;
              CallOctreeUpdate pongScene;
              CallViewUpdate pingView;
              CallViewUpdate pongView;
              CallBeginFrame (deviceReady_ B w) ]
            ++ (if deviceReady_ B w then
                  [CallSetData pongTextureRef 0 0 0 size size]
                  ++ map CallRender (alternate n pingView pongView)
                  ++ [CallGetData (currentAfter n) 0; CallEndFrame]
                else [CallLogError beginFrameError])).
  { subst calls. apply newCalls_app. rewrite Hrun.
    destruct (deviceReady_ B w); reflexivity. }
  split; [exact Hcalls|].
  rewrite Hcalls. split; [reflexivity|].
  cbn [skipn app].
  destruct (deviceReady_ B w); cbn [forallb isSetup negb andb app]; [|reflexivity].
  rewrite forallb_app, no_setup_in_renders. reflexivity.
Qed.

End Driver.

Lemma StitchLightmapSeams_zero_iterations_witness :
  let world := sampleWorld true in
  let run :=
    StitchLightmapSeams exactBackend engineCamera sampleImage (sampleSettings 0)
      (CreateSeamsModel sampleSeams) world in
  numIterations_ (sampleSettings 0) = 0%nat /\
  deviceReady_ exactBackend world = true /\
  count isSetData (newCalls world (snd run)) = 1%nat /\
  count isGetData (newCalls world (snd run)) = 1%nat /\
  count isRender (newCalls world (snd run)) = 0%nat /\
  fst run = sampleImage.
Proof.
  intros world run.
  destruct (StitchLightmapSeams_zero_iterations exactBackend engineCamera sampleImage
              (sampleSettings 0) (CreateSeamsModel sampleSeams) world eq_refl)
    as [Hbegun Hexact].
  destruct (Hbegun eq_refl) as (_ & Hset & Hget & Hrender & _).
  split; [reflexivity|].
  split; [reflexivity|].
  split; [exact Hset|].
  split; [exact Hget|].
  split; [exact Hrender|].
  exact (Hexact eq_refl).
Defined.

Lemma StitchLightmapSeams_ping_pong_witness :
  let world := sampleWorld true in
  let run :=
    StitchLightmapSeams exactBackend engineCamera sampleImage (sampleSettings 3)
      (CreateSeamsModel sampleSeams) world in
  deviceReady_ exactBackend world = true /\
  count isRender (newCalls world (snd run)) = 3%nat /\
  exists writes,
    newCalls world (snd run) = writes ++ [CallGetData pingTextureRef 0; CallEndFrame] /\
    lastWritten writes = Some pingTextureRef.
Proof.
  intros world run.
  destruct (StitchLightmapSeams_ping_pong exactBackend engineCamera sampleImage
              (sampleSettings 3) (CreateSeamsModel sampleSeams) world eq_refl)
    as (_ & Hrenders & writes & Hcalls & Hlast & _).
  split; [reflexivity|].
  split; [exact Hrenders|].
  exists writes. split; [exact Hcalls | exact Hlast].
Defined.

Lemma StitchLightmapSeams_begin_frame_failure_witness :
  let world := sampleWorld false in
  let run :=
    StitchLightmapSeams exactBackend engineCamera sampleImage (sampleSettings 3)
      (CreateSeamsModel sampleSeams) world in
  deviceReady_ exactBackend world = false /\
  fst run = sampleImage /\
  stitchingContext_ exactBackend (snd run) = stitchingContext_ exactBackend world /\
  count isSetData (newCalls world (snd run)) = 0%nat /\
  count isRender (newCalls world (snd run)) = 0%nat /\
  count isGetData (newCalls world (snd run)) = 0%nat /\
  count isEndFrame (newCalls world (snd run)) = 0%nat.
Proof.
  intros world run.
  destruct (StitchLightmapSeams_begin_frame_failure exactBackend engineCamera sampleImage
              (sampleSettings 3) (CreateSeamsModel sampleSeams) world eq_refl)
    as (Hout & Hctx & _ & Hset & Hrender & Hget & Hend).
  split; [reflexivity|].
  repeat split; assumption.
Defined.

(* ================================================================== *)
(** * Further properties *)

(** ** The draw distance key *)

Lemma testbit_above (d n k : Z) :
  0 <= d < 2 ^ k -> 0 <= k <= n -> Z.testbit d n = false.
Proof.
  intros Hd Hk. apply Z.testbit_false; [lia|].
  rewrite Z.div_small; [reflexivity|].
  split; [lia|].
  apply Z.lt_le_trans with (2 ^ k); [lia|].
  apply Z.pow_le_mono_r; lia.
Qed.

Lemma lxor_sign_bit (d : Z) :
  0 <= d < 2 ^ 31 -> Z.lxor d (2 ^ 31) = d + 2 ^ 31.
Proof.
  intros Hd. symmetry. apply Z.add_nocarry_lxor.
  apply Z.bits_inj'. intros n Hn.
  rewrite Z.land_spec, Z.bits_0, Z.pow2_bits_eqb by lia.
  destruct (Z.eqb_spec 31 n) as [<-|Hne].
  - rewrite (testbit_above d 31 31) by lia. reflexivity.
  - apply andb_false_r.
Qed.

Lemma lxor_all_bits (d : Z) :
  0 <= d < 2 ^ 32 -> Z.lxor d (Z.ones 32) = Z.ones 32 - d.
Proof.
  intros Hd.
  assert (Hno : Z.land (Z.lxor d (Z.ones 32)) d = 0).
  { apply Z.bits_inj'. intros n Hn.
    rewrite Z.land_spec, Z.lxor_spec, Z.bits_0.
    destruct (Z.ltb_spec n 32) as [Hlt|Hge].
    - rewrite Z.ones_spec_low by lia. destruct (Z.testbit d n); reflexivity.
    - rewrite (testbit_above d n 32) by lia. apply andb_false_r. }
  apply Z.add_nocarry_lxor in Hno.
  rewrite Z.lxor_assoc, (Z.lxor_comm (Z.ones 32) d), <- Z.lxor_assoc,
    Z.lxor_nilpotent, Z.lxor_0_l in Hno.
  lia.
Qed.

Lemma SetDrawDistance_mask (d : Z) :
  0 <= d < 2 ^ 32 ->
  Z.lor (to_unsigned (- to_int (Z.shiftr d 31))) 0x80000000
  = if d <? 2 ^ 31 then 2 ^ 31 else Z.ones 32.
Proof.
  intros Hd. rewrite Z.shiftr_div_pow2 by lia.
  destruct (Z.ltb_spec d (2 ^ 31)) as [Hlt|Hge].
  - rewrite Z.div_small by lia. reflexivity.
  - replace (d / 2 ^ 31) with 1; [reflexivity|].
    apply Z.div_unique with (d - 2 ^ 31); lia.
Qed.

Lemma SetDrawDistance_closed (d : Z) (g : GraphicsImpl.t) :
  0 <= d < 2 ^ 32 ->
  GraphicsImpl.drawDistance_ (GraphicsImpl.SetDrawDistance d g)
  = if d <? 2 ^ 31 then d + 2 ^ 31 else 2 ^ 32 - 1 - d.
Proof.
  intros Hd. unfold GraphicsImpl.SetDrawDistance.
  cbn [GraphicsImpl.drawDistance_].
  rewrite SetDrawDistance_mask by exact Hd.
  destruct (Z.ltb_spec d (2 ^ 31)) as [Hlt|Hge].
  - apply lxor_sign_bit. lia.
  - rewrite lxor_all_bits by lia. reflexivity.
Qed.

(** X1: for a 32-bit draw distance, [SetDrawDistance] stores the distance
    with bit 31 set when that bit was clear, and the bitwise complement of
    the distance when it was set; the key is again a 32-bit value and the
    current view is left as it was. *)
Theorem SetDrawDistance_key (drawDistance : Z) (g : GraphicsImpl.t) :
  0 <= drawDistance < 2 ^ 32 ->
  let g' := GraphicsImpl.SetDrawDistance drawDistance g in
  GraphicsImpl.drawDistance_ g'
  = (if drawDistance <? 2 ^ 31 then drawDistance + 2 ^ 31
     else 2 ^ 32 - 1 - drawDistance) /\
  0 <= GraphicsImpl.drawDistance_ g' < 2 ^ 32 /\
  GraphicsImpl.view_ g' = GraphicsImpl.view_ g.
Proof.
  intros Hd g'. subst g'.
  rewrite SetDrawDistance_closed by exact Hd.
  destruct (Z.ltb_spec drawDistance (2 ^ 31)); repeat split; lia.
Qed.

Lemma SetDrawDistance_key_witness :
  GraphicsImpl.drawDistance_ (GraphicsImpl.SetDrawDistance 3212836864 (GraphicsImpl.mk 7 0))
  = 1082130431 /\
  GraphicsImpl.view_ (GraphicsImpl.SetDrawDistance 3212836864 (GraphicsImpl.mk 7 0)) = 7.
Proof.
  assert (H : 0 <= 3212836864 < 2 ^ 32) by lia.
  destruct (SetDrawDistance_key 3212836864 (GraphicsImpl.mk 7 0) H) as (Hkey & _ & Hview).
  split; [exact Hkey | exact Hview].
Defined.

Lemma drawDistanceKey_closed (d : Z) :
  0 <= d < 2 ^ 32 ->
  drawDistanceKey d = if d <? 2 ^ 31 then d + 2 ^ 31 else 2 ^ 32 - 1 - d.
Proof. intros Hd. unfold drawDistanceKey. now apply SetDrawDistance_closed. Qed.

(** X2: [SetDrawDistance] loses nothing: two different 32-bit draw
    distances are never given the same key. *)
Theorem SetDrawDistance_injective (a b : Z) (g g' : GraphicsImpl.t) :
  0 <= a < 2 ^ 32 ->
  0 <= b < 2 ^ 32 ->
  GraphicsImpl.drawDistance_ (GraphicsImpl.SetDrawDistance a g)
  = GraphicsImpl.drawDistance_ (GraphicsImpl.SetDrawDistance b g') ->
  a = b.
Proof.
  intros Ha Hb. rewrite !SetDrawDistance_closed by assumption.
  destruct (Z.ltb_spec a (2 ^ 31)), (Z.ltb_spec b (2 ^ 31)); lia.
Qed.

Lemma SetDrawDistance_injective_witness :
  GraphicsImpl.drawDistance_ (GraphicsImpl.SetDrawDistance 5 (GraphicsImpl.mk 0 0))
  = GraphicsImpl.drawDistance_ (GraphicsImpl.SetDrawDistance 5 (GraphicsImpl.mk 1 9)) /\
  5 = 5.
Proof.
  split; [reflexivity|].
  apply (SetDrawDistance_injective 5 5 (GraphicsImpl.mk 0 0) (GraphicsImpl.mk 1 9));
    [lia | lia | reflexivity].
Defined.

(** X3: the keys are ordered as the distances are when these are read as
    sign and magnitude: a key is below another exactly when its distance
    denotes the smaller number, or when the two are the negative and the
    positive zero. *)
Theorem SetDrawDistance_order (a b : Z) :
  0 <= a < 2 ^ 32 ->
  0 <= b < 2 ^ 32 ->
  drawDistanceKey a < drawDistanceKey b
  <-> signMagnitude a < signMagnitude b \/ (a = 2 ^ 31 /\ b = 0).
Proof.
  intros Ha Hb. rewrite !drawDistanceKey_closed by assumption.
  unfold signMagnitude.
  destruct (Z.ltb_spec a (2 ^ 31)), (Z.ltb_spec b (2 ^ 31)); lia.
Qed.

Lemma SetDrawDistance_order_witness :
  drawDistanceKey 3212836864 < drawDistanceKey 1065353216
  <-> signMagnitude 3212836864 < signMagnitude 1065353216
      \/ (3212836864 = 2 ^ 31 /\ 1065353216 = 0).
Proof.
  apply (SetDrawDistance_order 3212836864 1065353216); lia.
Defined.

(** ** Passes of a technique *)

Lemma passAt_in_range (tech : Technique.t) (passIndex : nat) :
  (passIndex < List.length (Technique.passes_ tech))%nat ->
  nth_error (Technique.passes_ tech) passIndex = Some (Technique.passAt tech passIndex).
Proof.
  intros Hlt. unfold Technique.passAt. now apply nth_error_nth'.
Qed.

(** X5: [HasPass] and [GetPass] agree: [HasPass] answers true exactly when
    [GetPass] returns a pass, and the pass returned is the non-null entry of
    the pass list at that index. *)
Theorem Technique_HasPass_GetPass (passIndex : nat) (tech : Technique.t) :
  (Technique.HasPass passIndex tech = true
   <-> exists pass, Technique.GetPass passIndex tech = Some pass) /\
  (forall pass,
      Technique.GetPass passIndex tech = Some pass
      <-> nth_error (Technique.passes_ tech) passIndex = Some (Some pass)).
Proof.
  unfold Technique.HasPass, Technique.GetPass.
  destruct (Nat.ltb_spec passIndex (List.length (Technique.passes_ tech))) as [Hlt|Hge].
  - rewrite (passAt_in_range tech passIndex Hlt).
    destruct (Technique.passAt tech passIndex) as [p|]; simpl; split.
    + split; [intros _; now exists p | reflexivity].
    + intros pass. split; congruence.
    + split; [discriminate | intros [pass H]; discriminate].
    + intros pass. split; congruence.
  - simpl. split.
    + split; [discriminate | intros [pass H]; discriminate].
    + intros pass. split; [discriminate|].
      intros H.
      assert (Hsome : nth_error (Technique.passes_ tech) passIndex <> None) by congruence.
      apply nth_error_Some in Hsome. lia.
Qed.

(** X6: for an index at or beyond the number of passes, [HasPass] is false
    and both [GetPass] and [GetSupportedPass] return null. *)
Theorem Technique_index_out_of_range (passIndex : nat) (tech : Technique.t) :
  (List.length (Technique.passes_ tech) <= passIndex)%nat ->
  Technique.HasPass passIndex tech = false /\
  Technique.GetPass passIndex tech = None /\
  Technique.GetSupportedPass passIndex tech = None.
Proof.
  intros Hge.
  unfold Technique.HasPass, Technique.GetPass, Technique.GetSupportedPass.
  destruct (Nat.ltb_spec passIndex (List.length (Technique.passes_ tech))); [lia|].
  repeat split.
Qed.

(** X7: [GetSupportedPass] returns a pass exactly when [GetPass] returns that
    pass and the pass does not need desktop hardware or the hardware has
    desktop support.  So with desktop support the two functions agree on
    every index, and without it [GetSupportedPass] never returns a desktop
    pass. *)
Theorem Technique_GetSupportedPass (passIndex : nat) (tech : Technique.t) :
  (forall pass,
      Technique.GetSupportedPass passIndex tech = Some pass
      <-> Technique.GetPass passIndex tech = Some pass
          /\ (Pass.IsDesktop pass = false \/ Technique.desktopSupport_ tech = true)) /\
  (Technique.desktopSupport_ tech = true ->
   Technique.GetSupportedPass passIndex tech = Technique.GetPass passIndex tech) /\
  (Technique.desktopSupport_ tech = false ->
   forall pass,
     Technique.GetSupportedPass passIndex tech = Some pass ->
     Pass.IsDesktop pass = false).
Proof.
  unfold Technique.GetSupportedPass, Technique.GetPass.
  destruct (if (passIndex <? List.length (Technique.passes_ tech))%nat
            then Technique.passAt tech passIndex else None) as [p|].
  - split; [|split].
    + intros pass. split.
      * destruct (Pass.IsDesktop p) eqn:Hd, (Technique.desktopSupport_ tech) eqn:Hs;
          simpl; intros H; try discriminate; injection H as <-; auto.
      * intros [H Hor]. injection H as <-.
        destruct Hor as [-> | ->]; [reflexivity|].
        now rewrite orb_true_r.
    + intros ->. now rewrite orb_true_r.
    + intros ->. intros pass. rewrite orb_false_r.
      destruct (Pass.IsDesktop p) eqn:Hd; simpl; intros H; [discriminate|].
      injection H as <-. exact Hd.
  - repeat split; try discriminate; try reflexivity.
    intros [H _]; discriminate.
Qed.

Lemma Technique_index_out_of_range_witness :
  Technique.HasPass 3 (sampleTechnique true) = false /\
  Technique.GetPass 3 (sampleTechnique true) = None /\
  Technique.GetSupportedPass 3 (sampleTechnique true) = None.
Proof.
  apply (Technique_index_out_of_range 3 (sampleTechnique true)).
  simpl. lia.
Defined.

Lemma Technique_GetSupportedPass_witness :
  Technique.GetSupportedPass 2 (sampleTechnique true)
  = Technique.GetPass 2 (sampleTechnique true) /\
  Technique.GetSupportedPass 2 (sampleTechnique false) = None /\
  Technique.GetSupportedPass 0 (sampleTechnique false) = Some (samplePass "base" false).
Proof.
  split; [|split].
  - exact (proj1 (proj2 (Technique_GetSupportedPass 2 (sampleTechnique true))) eq_refl).
  - reflexivity.
  - apply (proj1 (Technique_GetSupportedPass 0 (sampleTechnique false))).
    split; [reflexivity | left; reflexivity].
Defined.

(** ** More on the stitching context *)

(** X8: [InitializeStitchingContext] returns a context exactly when the
    channel count is 1, 2 or 4 or assertions are compiled out; with
    assertions compiled in, every other channel count stops it at the failed
    assertion, whatever the lightmap size. *)
Theorem InitializeStitchingContext_returns_iff `{GraphicsFormats} (B : Backend)
    (NDEBUG : bool) (context : Context) (lightmapSize numChannels : Z) :
  ((exists ctx,
      InitializeStitchingContext B NDEBUG context lightmapSize numChannels = Returned ctx)
   <-> validChannels numChannels \/ NDEBUG = true) /\
  (InitializeStitchingContext B NDEBUG context lightmapSize numChannels = AssertionFailed
   <-> ~ validChannels numChannels /\ NDEBUG = false).
Proof.
  assert (Hdec : validChannels numChannels \/ ~ validChannels numChannels).
  { unfold validChannels. lia. }
  destruct Hdec as [Hv|Hn].
  - destruct (GetStitchTextureFormat_valid NDEBUG numChannels Hv) as [format Hf].
    rewrite (InitializeStitchingContext_returned B NDEBUG context lightmapSize
               numChannels format Hf).
    split; split.
    + intros _. now left.
    + intros _. eexists. reflexivity.
    + discriminate.
    + tauto.
  - destruct NDEBUG.
    + assert (Hf : GetStitchTextureFormat true numChannels = Returned 0)
        by now rewrite GetStitchTextureFormat_default.
      rewrite (InitializeStitchingContext_returned B true context lightmapSize
                 numChannels 0 Hf).
      split; split.
      * intros _. now right.
      * intros _. eexists. reflexivity.
      * discriminate.
      * intros [_ Hfalse]. discriminate.
    + assert (Hfail : InitializeStitchingContext B false context lightmapSize numChannels
                      = AssertionFailed).
      { unfold InitializeStitchingContext.
        now rewrite GetStitchTextureFormat_default. }
      rewrite Hfail. split; split.
      * intros [ctx Hctx]. discriminate.
      * intros [Hv|Hnd]; [tauto | discriminate].
      * intros _. split; [exact Hn | reflexivity].
      * reflexivity.
Qed.

(** ** More on the seam geometry *)

(** X9: seam vertex data is built seam by seam and nothing else enters it:
    the data of two seam vectors put one after the other is the data of the
    first followed by the data of the second, and the vertex counts of the
    buffers and the draw counts of the models add up. *)
Theorem seamsVertexData_app (seams1 seams2 : LightmapSeamVector) :
  shadowData_ (CreateSeamsVertexBuffer (seams1 ++ seams2))
  = shadowData_ (CreateSeamsVertexBuffer seams1)
    ++ shadowData_ (CreateSeamsVertexBuffer seams2) /\
  vertexCount_ (CreateSeamsVertexBuffer (seams1 ++ seams2))
  = (vertexCount_ (CreateSeamsVertexBuffer seams1)
     + vertexCount_ (CreateSeamsVertexBuffer seams2))%nat /\
  option_map drawVertexCount_ (ModelOps.GetGeometry 0 0 (CreateSeamsModel (seams1 ++ seams2)))
  = Some (2 * List.length seams1 + 2 * List.length seams2)%nat.
Proof.
  rewrite !CreateSeamsVertexBuffer_data, !seamsVertexData_flat_map, flat_map_app.
  split; [reflexivity|].
  split.
  - simpl. rewrite length_app. lia.
  - unfold CreateSeamsModel. simpl. rewrite length_app. f_equal. lia.
Qed.

(** ** More on runs of [StitchLightmapSeams] *)

Section Runs.

Variable B : Backend.
Variable newCamera : Camera.

Lemma count_renders (p : Call -> bool) (views : list View) :
  (forall v, p (CallRender v) = false) ->
  count p (map CallRender views) = 0%nat.
Proof.
  intros Hp. unfold count.
  induction views as [|v views IH]; simpl; [reflexivity|].
  now rewrite Hp.
Qed.

Lemma forallb_renders (p : Call -> bool) (views : list View) :
  (forall v, p (CallRender v) = true) ->
  forallb p (map CallRender views) = true.
Proof.
  intros Hp. induction views as [|v views IH]; simpl; [reflexivity|].
  now rewrite Hp.
Qed.

(** X11: every run begins a frame exactly once; it ends the frame exactly
    when the frame did begin, and then as its last call.  No call made
    before [BeginFrame] touches the contents of a texture, and when the
    frame does not begin no call at all does: uploads, renders and readbacks
    only happen inside an open frame. *)
Theorem StitchLightmapSeams_frame_bracket (imageData : list Vector4)
    (settings : LightmapStitchingSettings) (seamsModel : Model) (w : World B) :
  let calls :=
    newCalls w (snd (StitchLightmapSeams B newCamera imageData settings seamsModel w)) in
  count isBeginFrame calls = 1%nat /\
  count isEndFrame calls = (if deviceReady_ B w then 1 else 0)%nat /\
  exists before inside,
    calls = before ++ [CallBeginFrame (deviceReady_ B w)] ++ inside
            ++ (if deviceReady_ B w then [CallEndFrame] else []) /\
    forallb (fun c => negb (touchesTexture c)) before = true /\
    forallb (fun c => negb (isBeginFrame c || isEndFrame c)) (before ++ inside) = true /\
    (if deviceReady_ B w then True
     else forallb (fun c => negb (touchesTexture c)) inside = true).
Proof.
  intros calls.
  set (n := numIterations_ settings).
  set (size := to_int (lightmapSize_ B (stitchingContext_ B w))).
  set (pingView := pingViewOf B newCamera settings seamsModel).
  set (pongView := pongViewOf B newCamera settings seamsModel).
  set (setup := setupCalls B newCamera settings seamsModel).
  set (inside :=
         if deviceReady_ B w then
           [CallSetData pongTextureRef 0 0 0 size size]
           ++ map CallRender (alternate n pingView pongView)
           ++ [CallGetData (currentAfter n) 0]
         else [CallLogError beginFrameError]).
  assert (Hcalls :
    calls = setup ++ [CallBeginFrame (deviceReady_ B w)] ++ inside
            ++ (if deviceReady_ B w then [CallEndFrame] else [])).
  { subst calls. apply newCalls_app.
    rewrite (StitchLightmapSeams_run B newCamera imageData settings seamsModel w).
    cbv zeta. subst inside. fold n size pingView pongView setup.
    destruct (deviceReady_ B w); cbn [snd calls_]; [|reflexivity].
    repeat rewrite <- app_assoc. reflexivity. }
  split; [|split].
  - rewrite Hcalls, !count_app. subst inside.
    destruct (deviceReady_ B w); [|reflexivity].
    rewrite !count_app, count_renders by reflexivity. reflexivity.
  - rewrite Hcalls, !count_app. subst inside.
    destruct (deviceReady_ B w); [|reflexivity].
    rewrite !count_app, count_renders by reflexivity. reflexivity.
  - exists setup, inside. split; [exact Hcalls|].
    split; [reflexivity|].
    split.
    + rewrite forallb_app. subst inside.
      destruct (deviceReady_ B w); [|reflexivity].
      rewrite !forallb_app, forallb_renders by reflexivity. reflexivity.
    + subst inside. destruct (deviceReady_ B w); reflexivity.
Qed.

(** *** What the passes read *)

Lemma alternate_snoc {A} (n : nat) :
  forall a b : A,
    alternate (S n) a b = alternate n a b ++ [if Nat.even n then a else b].
Proof.
  induction n as [|n IH]; intros a b.
  - reflexivity.
  - change (alternate (S (S n)) a b) with (a :: alternate (S n) b a).
    rewrite (IH b a), Nat.even_succ, <- Nat.negb_even.
    destruct (Nat.even n); reflexivity.
Qed.

Lemma afterRenders_snoc (views : list View) (v : View)
    (ctx : LightmapStitchingContext B) :
  afterRenders B (views ++ [v]) ctx = afterRender B v (afterRenders B views ctx).
Proof. unfold afterRenders. now rewrite fold_left_app. Qed.

Lemma afterRender_target (view : View) (target : TextureRef)
    (ctx : LightmapStitchingContext B) :
  renderTarget_ view = Some target ->
  image_ B (texture B (afterRender B view ctx) target)
  = render B view (fun r => image_ B (texture B ctx r)).
Proof.
  intros Ht. unfold afterRender. rewrite Ht. destruct target; reflexivity.
Qed.

Lemma afterRenders_chain (passPing passPong : Image B -> Image B)
    (pingView pongView : View) (ctx : LightmapStitchingContext B) :
  renderTarget_ pingView = Some pingTextureRef ->
  renderTarget_ pongView = Some pongTextureRef ->
  (forall images, render B pingView images = passPing (images pongTextureRef)) ->
  (forall images, render B pongView images = passPong (images pingTextureRef)) ->
  forall n,
    image_ B (texture B (afterRenders B (alternate n pingView pongView) ctx)
                (currentAfter n))
    = passChain passPing passPong n (image_ B (pongTexture_ B ctx)).
Proof.
  intros Htp Htq Hp Hq n. induction n as [|n IH].
  - reflexivity.
  - rewrite alternate_snoc, afterRenders_snoc.
    unfold currentAfter in *. rewrite Nat.even_succ, <- Nat.negb_even.
    cbn [passChain].
    destruct (Nat.even n); cbn [negb].
    + rewrite (afterRender_target pingView pingTextureRef _ Htp), Hp.
      now rewrite IH.
    + rewrite (afterRender_target pongView pongTextureRef _ Htq), Hq.
      now rewrite IH.
Qed.

(** X12: on a GPU whose render of the ping view is a function of the pong
    texture's contents alone, and whose render of the pong view is a function
    of the ping texture's contents alone, every round reads what the round
    before it wrote: after [n] rounds the current texture holds the uploaded
    image passed through the ping pass, the pong pass, the ping pass, ...,
    [n] passes in all, and that is what is read back into the caller's
    buffer. *)
Theorem StitchLightmapSeams_data_flow (passPing passPong : Image B -> Image B)
    (imageData : list Vector4) (settings : LightmapStitchingSettings)
    (seamsModel : Model) (w : World B) :
  deviceReady_ B w = true ->
  (forall images,
      render B (pingViewOf B newCamera settings seamsModel) images
      = passPing (images pongTextureRef)) ->
  (forall images,
      render B (pongViewOf B newCamera settings seamsModel) images
      = passPong (images pingTextureRef)) ->
  let n := numIterations_ settings in
  let run := StitchLightmapSeams B newCamera imageData settings seamsModel w in
  let size := to_int (lightmapSize_ B (stitchingContext_ B w)) in
  let uploaded :=
    upload B (image_ B (pongTexture_ B (stitchingContext_ B w))) 0 0 0 size size
      imageData in
  image_ B (texture B (stitchingContext_ B (snd run)) (currentAfter n))
  = passChain passPing passPong n uploaded /\
  fst run = readback B (passChain passPing passPong n uploaded) 0 imageData.
Proof.
  intros Hready Hp Hq n run size uploaded.
  pose proof (StitchLightmapSeams_run B newCamera imageData settings seamsModel w) as Hrun.
  cbv zeta in Hrun. rewrite Hready in Hrun. fold run n in Hrun.
  pose proof (afterRenders_chain passPing passPong
                (pingViewOf B newCamera settings seamsModel)
                (pongViewOf B newCamera settings seamsModel)
                (afterUpload B pongTextureRef imageData (stitchingContext_ B w))
                eq_refl eq_refl Hp Hq n) as Hchain.
  change (image_ B (pongTexture_ B
            (afterUpload B pongTextureRef imageData (stitchingContext_ B w))))
    with uploaded in Hchain.
  rewrite Hrun. cbn [fst snd stitchingContext_].
  rewrite Hchain. split; reflexivity.
Qed.

End Runs.

(** X13: a context made by [InitializeStitchingContext] and then handed to
    [StitchLightmapSeams] is uploaded to in full: the region of the one
    [SetData] call is the whole pong texture, from the origin and with the
    width and height the texture was sized with, for every lightmap size. *)
Theorem StitchLightmapSeams_uploads_whole_texture `{GraphicsFormats} (B : Backend)
    (newCamera : Camera) (NDEBUG : bool) (context : Context)
    (lightmapSize numChannels : Z) (ctx : LightmapStitchingContext B)
    (imageData : list Vector4) (settings : LightmapStitchingSettings)
    (seamsModel : Model) (calls : list Call) :
  InitializeStitchingContext B NDEBUG context lightmapSize numChannels = Returned ctx ->
  let w := mkWorld B ctx true calls in
  let new :=
    newCalls w (snd (StitchLightmapSeams B newCamera imageData settings seamsModel w)) in
  filter isSetData new
  = [CallSetData pongTextureRef 0 0 0
       (width_ B (pongTexture_ B ctx)) (height_ B (pongTexture_ B ctx))].
Proof.
  intros Hinit w new.
  assert (Hsize : width_ B (pongTexture_ B ctx) = to_int (lightmapSize_ B ctx) /\
                  height_ B (pongTexture_ B ctx) = to_int (lightmapSize_ B ctx)).
  { unfold InitializeStitchingContext in Hinit.
    destruct (GetStitchTextureFormat NDEBUG numChannels) as [format|]; [|discriminate].
    simpl in Hinit. injection Hinit as <-. split; reflexivity. }
  destruct Hsize as [-> ->].
  assert (Hnew : new = setupCalls B newCamera settings seamsModel
                       ++ [CallBeginFrame true;
                           CallSetData pongTextureRef 0 0 0
                             (to_int (lightmapSize_ B ctx)) (to_int (lightmapSize_ B ctx))]
                       ++ map CallRender
                            (alternate (numIterations_ settings)
                               (pingViewOf B newCamera settings seamsModel)
                               (pongViewOf B newCamera settings seamsModel))
                       ++ [CallGetData (currentAfter (numIterations_ settings)) 0;
                           CallEndFrame]).
  { subst new. apply newCalls_app.
    rewrite (StitchLightmapSeams_run B newCamera imageData settings seamsModel w).
    reflexivity. }
  rewrite Hnew, !filter_app.
  assert (Hrenders : forall views, filter isSetData (map CallRender views) = []).
  { induction views as [|v views IH]; [reflexivity | exact IH]. }
  rewrite Hrenders. reflexivity.
Qed.

(** ** The draw distance key of a float *)

Example decodeFloat32_literals :
  decodeFloat32 0x3F800000 = F32.one /\
  decodeFloat32 0x3DCCCCCD = F32.tenth /\
  decodeFloat32 0x41200000 = F32.ten /\
  decodeFloat32 0xBF000000 = F32.opp F32.half /\
  decodeFloat32 0x7F800000 = S754_infinity false /\
  decodeFloat32 0x80000000 = S754_zero true.
Proof. repeat split. Qed.

Lemma decodeMagnitude_lt (s1 s2 : bool) (m1 m2 : Z) :
  0 <= m1 < 2 ^ 31 ->
  0 <= m2 < 2 ^ 31 ->
  SFltb (decodeMagnitude s1 m1) (decodeMagnitude s2 m2) = true ->
  (if s1 then - m1 else m1) < (if s2 then - m2 else m2).
Proof.
  intros H1 H2. unfold decodeMagnitude, SFltb.
  pose proof (Z.div_mod m1 (2 ^ 23) ltac:(lia)) as Hm1.
  pose proof (Z.div_mod m2 (2 ^ 23) ltac:(lia)) as Hm2.
  pose proof (Z.mod_pos_bound m1 (2 ^ 23) ltac:(lia)) as Hf1.
  pose proof (Z.mod_pos_bound m2 (2 ^ 23) ltac:(lia)) as Hf2.
  assert (He1 : 0 <= m1 / 2 ^ 23 < 256).
  { split; [apply Z.div_pos; lia | apply Z.div_lt_upper_bound; lia]. }
  assert (He2 : 0 <= m2 / 2 ^ 23 < 256).
  { split; [apply Z.div_pos; lia | apply Z.div_lt_upper_bound; lia]. }
  generalize dependent (m1 / 2 ^ 23). intros e1 Hm1 He1.
  generalize dependent (m2 / 2 ^ 23). intros e2 Hm2 He2.
  generalize dependent (m1 mod 2 ^ 23). intros f1 Hm1 Hf1.
  generalize dependent (m2 mod 2 ^ 23). intros f2 Hm2 Hf2.
  change (2 ^ 23) with 8388608 in *. change (2 ^ 31) with 2147483648 in *.
  destruct (Z.eqb_spec e1 255), (Z.eqb_spec f1 0), (Z.eqb_spec e1 0);
    destruct (Z.eqb_spec e2 255), (Z.eqb_spec f2 0), (Z.eqb_spec e2 0);
    try lia;
    destruct s1, s2; cbn [SFcompare]; try discriminate; try lia;
    change (PosDef.Pos.compare_cont Eq ?a ?b) with (Pos.compare a b);
    match goal with
    | |- context [Z.compare ?x ?y] => destruct (Z.compare_spec x y)
    end;
    try discriminate; try lia;
    match goal with
    | |- context [Pos.compare ?x ?y] => destruct (Pos.compare_spec x y)
    end;
    cbn [CompOpp]; try discriminate; lia.
Qed.

(** X4: read as the bit patterns of binary32 numbers, draw distances get
    keys in the order of the numbers: whenever one distance is less than
    another as a float (which excludes NaN), its key is the smaller one. *)
Theorem SetDrawDistance_float_order (a b : Z) :
  0 <= a < 2 ^ 32 ->
  0 <= b < 2 ^ 32 ->
  SFltb (decodeFloat32 a) (decodeFloat32 b) = true ->
  drawDistanceKey a < drawDistanceKey b.
Proof.
  intros Ha Hb Hlt.
  apply decodeMagnitude_lt in Hlt; try (apply Z.mod_pos_bound; lia).
  rewrite !drawDistanceKey_closed by assumption.
  assert (Hma : a mod 2 ^ 31 = if a <? 2 ^ 31 then a else a - 2 ^ 31).
  { destruct (Z.ltb_spec a (2 ^ 31)).
    - apply Z.mod_small. lia.
    - symmetry. apply Z.mod_unique with 1; lia. }
  assert (Hmb : b mod 2 ^ 31 = if b <? 2 ^ 31 then b else b - 2 ^ 31).
  { destruct (Z.ltb_spec b (2 ^ 31)).
    - apply Z.mod_small. lia.
    - symmetry. apply Z.mod_unique with 1; lia. }
  rewrite Hma, Hmb in Hlt.
  destruct (Z.ltb_spec a (2 ^ 31)), (Z.ltb_spec b (2 ^ 31));
    destruct (Z.leb_spec (2 ^ 31) a), (Z.leb_spec (2 ^ 31) b); lia.
Qed.

Lemma SetDrawDistance_float_order_witness :
  SFltb (F32.opp F32.half) F32.tenth = true /\
  drawDistanceKey 0xBF000000 < drawDistanceKey 0x3DCCCCCD.
Proof.
  split; [reflexivity|].
  apply (SetDrawDistance_float_order 0xBF000000 0x3DCCCCCD); [lia | lia | reflexivity].
Defined.

(** ** Witnesses and further runs *)

Lemma StitchLightmapSeams_data_flow_witness :
  let world := sampleWorld true in
  let settings := sampleSettings 3 in
  let seamsModel := CreateSeamsModel sampleSeams in
  let copy := fun image : Image exactBackend => image in
  deviceReady_ exactBackend world = true /\
  let n := numIterations_ settings in
  let run := StitchLightmapSeams exactBackend engineCamera sampleImage settings seamsModel
               world in
  let size := to_int (lightmapSize_ exactBackend (stitchingContext_ exactBackend world)) in
  let uploaded :=
    upload exactBackend
      (image_ exactBackend (pongTexture_ exactBackend (stitchingContext_ exactBackend world)))
      0 0 0 size size sampleImage in
  image_ exactBackend
    (texture exactBackend (stitchingContext_ exactBackend (snd run)) (currentAfter n))
  = passChain copy copy n uploaded /\
  fst run = readback exactBackend (passChain copy copy n uploaded) 0 sampleImage.
Proof.
  intros world settings seamsModel copy.
  split; [reflexivity|].
  exact (StitchLightmapSeams_data_flow exactBackend engineCamera copy copy
           sampleImage settings seamsModel world
           eq_refl (fun images => eq_refl) (fun images => eq_refl)).
Defined.

Lemma StitchLightmapSeams_uploads_whole_texture_witness :
  let world := sampleWorld true in
  filter isSetData
    (newCalls world
       (snd (StitchLightmapSeams exactBackend engineCamera sampleImage (sampleSettings 3)
               (CreateSeamsModel sampleSeams) world)))
  = [CallSetData pongTextureRef 0 0 0 2 2].
Proof.
  exact (@StitchLightmapSeams_uploads_whole_texture openGLFormats exactBackend
           engineCamera false 0%nat 2 4
           (stitchingContext_ exactBackend (sampleWorld true))
           sampleImage (sampleSettings 3) (CreateSeamsModel sampleSeams) [] eq_refl).
Defined.

(** X15: with [numIterations_ = 0] and a frame that begins, the ping texture
    is not written at all: it is after the run exactly what it was before,
    and the pong texture holds the uploaded image. *)
Theorem StitchLightmapSeams_zero_iterations_textures (B : Backend) (newCamera : Camera)
    (imageData : list Vector4) (settings : LightmapStitchingSettings)
    (seamsModel : Model) (w : World B) :
  numIterations_ settings = 0%nat ->
  deviceReady_ B w = true ->
  let w' := snd (StitchLightmapSeams B newCamera imageData settings seamsModel w) in
  let size := to_int (lightmapSize_ B (stitchingContext_ B w)) in
  pingTexture_ B (stitchingContext_ B w') = pingTexture_ B (stitchingContext_ B w) /\
  image_ B (pongTexture_ B (stitchingContext_ B w'))
  = upload B (image_ B (pongTexture_ B (stitchingContext_ B w))) 0 0 0 size size imageData.
Proof.
  intros Hn Hready w' size. subst w'.
  rewrite (StitchLightmapSeams_run B newCamera imageData settings seamsModel w).
  cbv zeta. rewrite Hn, Hready. split; reflexivity.
Qed.

Lemma StitchLightmapSeams_zero_iterations_textures_witness :
  let world := sampleWorld true in
  let world' :=
    snd (StitchLightmapSeams exactBackend engineCamera sampleImage (sampleSettings 0)
           (CreateSeamsModel sampleSeams) world) in
  pingTexture_ exactBackend (stitchingContext_ exactBackend world')
  = pingTexture_ exactBackend (stitchingContext_ exactBackend world) /\
  image_ exactBackend (pongTexture_ exactBackend (stitchingContext_ exactBackend world'))
  = sampleImage.
Proof.
  exact (StitchLightmapSeams_zero_iterations_textures exactBackend engineCamera
           sampleImage (sampleSettings 0) (CreateSeamsModel sampleSeams)
           (sampleWorld true) eq_refl eq_refl).
Defined.
